(** * The augmentation endpoint: route handler [POST] and [retrieveData]

    A shallow embedding of the two versions of the chat route handler
    (src/unnamed/part_000 and src/unnamed/part_001): the request handler
    [POST], its helper [retrieveData], the JavaScript primitives they rely on
    (truthiness, [String(...)], [JSON.stringify]), and the outbound calls
    ([fetch], [response.json()], [streamText]) as the nodes of a program tree
    that an explicit interpreter runs against the two collaborators.

    Modelling choices:
    - the request body is taken after [await req.json()], at its declared
      type [CoreMessage[]]; a Turn is a role and a content, the content being
      any JSON value (text, or an array of parts);
    - strings are byte strings, [process.env] is a record of four optional
      strings, a thrown [Error] is its message;
    - [await e] followed by the rest of the function is [bind]: the rest
      runs once the awaited call has settled, and does not run at all when it
      rejects;
    - the retrieval service and the language model are two functions of the
      request they receive; one run of the handler yields the list of the
      observable events, in order, and the way the handler settles. *)

From Stdlib Require Import String Ascii ZArith List Bool Lia.
From Stdlib Require Import QArith Qabs DecimalString.
From stdpp Require Import base list strings pretty.

Local Open Scope string_scope.

(** ** Text helpers *)

Definition nl : string := String "010"%char EmptyString.
Definition dquote : string := String "034"%char EmptyString.
Definition backslash : string := String "092"%char EmptyString.

(** [Array.prototype.join]-style concatenation of already converted items. *)
Fixpoint join (sep : string) (items : list string) : string :=
  match items with
  | [] => EmptyString
  | [s] => s
  | s :: rest => s +:+ sep +:+ join sep rest
  end.

(** A template literal written line by line: the lines are separated by the
    line feeds of the source text. *)
Definition lines (ls : list string) : string := join nl ls.

(** [hay.startsWith(needle)] *)
Fixpoint startsWith (needle hay : string) : bool :=
  match needle, hay with
  | EmptyString, _ => true
  | String _ _, EmptyString => false
  | String a n', String b h' => Ascii.eqb a b && startsWith n' h'
  end.

(** [hay.includes(needle)] *)
Fixpoint includes (needle hay : string) : bool :=
  startsWith needle hay ||
  match hay with
  | EmptyString => false
  | String _ h' => includes needle h'
  end.

(** [needle] occurs verbatim inside [hay]. *)
Definition occurs_in (needle hay : string) : Prop :=
  exists pre post, hay = pre +:+ needle +:+ post.

(** [obj[key]] on a list of own properties (first match), [None] for
    [undefined]. *)
Fixpoint property {A : Type} (key : string) (fields : list (string * A)) : option A :=
  match fields with
  | [] => None
  | (k, v) :: rest => if String.eqb k key then Some v else property key rest
  end.

(** ** JavaScript values as they come out of [JSON.parse]

    Numbers are IEEE doubles in the source; the handler only converts them to
    text and tests them for truthiness, so they are kept abstract behind the
    four operations the handler (through [String], [JSON.stringify] and [if])
    applies to them. *)
Class JsNumber (num : Type) := {
  num_of_Z : Z -> num;              (* an integer literal of the source *)
  num_to_string : num -> string;    (* Number::toString *)
  num_is_finite : num -> bool;      (* Number.isFinite *)
  num_truthy : num -> bool          (* ToBoolean: false on 0, -0 and NaN *)
}.

(** Integers are one instance, used for the concrete runs below. *)
#[export] Instance JsNumber_Z : JsNumber Z := {
  num_of_Z z := z;
  num_to_string z := pretty z;
  num_is_finite _ := true;
  num_truthy z := negb (Z.eqb z 0)
}.

#[local] Set Warnings "-register-all".

Inductive json (num : Type) : Type :=
| JNull
| JBool (b : bool)
| JNum (n : num)
| JStr (s : string)
| JArr (items : list (json num))
| JObj (fields : list (string * json num)).   (* own properties, in enumeration order *)

Arguments JNull {num}.
Arguments JBool {num} b.
Arguments JNum {num} n.
Arguments JStr {num} s.
Arguments JArr {num} items.
Arguments JObj {num} fields.

Section JsPrimitives.
Context {num : Type} `{JsNumber num}.

(** ToBoolean, as applied by [if (... && context)]. *)
Definition truthy (v : json num) : bool :=
  match v with
  | JNull => false
  | JBool b => b
  | JNum n => num_truthy n
  | JStr s => negb (String.eqb s EmptyString)
  | JArr _ => true
  | JObj _ => true
  end.

(** [String(v)] and the conversion done by a template literal [${v}]:
    a string is itself, an array is its items joined by commas (a null item
    contributing nothing), any other object is "[object Object]". *)
Fixpoint js_String (v : json num) : string :=
  match v with
  | JNull => "null"
  | JBool true => "true"
  | JBool false => "false"
  | JNum n => num_to_string n
  | JStr s => s
  | JArr items =>
      join "," (List.map (fun x => match x with
                                   | JNull => EmptyString
                                   | _ => js_String x
                                   end) items)
  | JObj _ => "[object Object]"
  end.

Definition hex_digit (n : nat) : string :=
  String (nth n (list_ascii_of_string "0123456789abcdef") "0"%char) EmptyString.

(** One character of a string inside [JSON.stringify]'s quotes. *)
Definition escape_char (c : ascii) : string :=
  let n := nat_of_ascii c in
  if Nat.eqb n 34 then backslash +:+ dquote
  else if Nat.eqb n 92 then backslash +:+ backslash
  else if Nat.eqb n 8 then backslash +:+ "b"
  else if Nat.eqb n 12 then backslash +:+ "f"
  else if Nat.eqb n 10 then backslash +:+ "n"
  else if Nat.eqb n 13 then backslash +:+ "r"
  else if Nat.eqb n 9 then backslash +:+ "t"
  else if Nat.ltb n 32 then
    backslash +:+ "u00" +:+ hex_digit (n / 16) +:+ hex_digit (n mod 16)
  else String c EmptyString.

Fixpoint escape (s : string) : string :=
  match s with
  | EmptyString => EmptyString
  | String c s' => escape_char c +:+ escape s'
  end.

Definition quote (s : string) : string := dquote +:+ escape s +:+ dquote.

(** [JSON.stringify(v)] for a value that came out of [JSON.parse] or was
    built from such values, strings, booleans and numbers. *)
Fixpoint JSON_stringify (v : json num) : string :=
  match v with
  | JNull => "null"
  | JBool true => "true"
  | JBool false => "false"
  | JNum n => if num_is_finite n then num_to_string n else "null"
  | JStr s => quote s
  | JArr items => "[" +:+ join "," (List.map JSON_stringify items) +:+ "]"
  | JObj fields =>
      "{" +:+ join "," (List.map (fun kv => quote (fst kv) +:+ ":" +:+ JSON_stringify (snd kv))
                                 fields) +:+ "}"
  end.

End JsPrimitives.

(** ** Data of the route *)

(** [process.env]: a variable is absent ([None]) or holds a string. *)
Record process_env := {
  MODEL : option string;
  VECTORIZE_TOKEN : option string;
  VECTORIZE_RETRIEVAL_URL : option string;
  GROQ_API_KEY : option string
}.

(** The result of an awaited promise. *)
Inductive settled (A : Type) : Type :=
| Fulfilled (value : A)
| Rejected (reason : string).

Arguments Fulfilled {A} value.
Arguments Rejected {A} reason.

Inductive LanguageModel := groq (modelId : string).

(** What [streamText] hands back: the text fragments of the answer. *)
Inductive StreamTextResult := TextStream (fragments : list string).

Inductive HttpResponse := toDataStreamResponse (result : StreamTextResult).

(** The second argument of [fetch]. *)
Record RequestInit := {
  method : string;
  headers : list (string * string);
  body : string
}.

Section Route.
Context {num : Type} `{JsNumber num}.

(** A Turn of the Conversation ([CoreMessage]); the handler never looks
    inside [content] except through [String] and [JSON.stringify]. *)
Record CoreMessage := {
  role : string;
  content : json num
}.

Definition message_json (m : CoreMessage) : json num :=
  JObj [("role", JStr (role m)); ("content", content m)].

(** The part of a [fetch] response that [retrieveData] reads. *)
Record Response := {
  ok : bool;
  statusText : string;
  json_body : settled (json num)     (* what [response.json()] settles to *)
}.

Record StreamTextArgs := {
  model : LanguageModel;
  system : string;
  messages : list CoreMessage
}.

(** *** Programs

    The handler as a tree: a leaf returns or throws, an inner node is one
    effect of the source followed by the rest of the function, which
    receives what the awaited call produced. *)
Inductive prog (A : Type) : Type :=
| Ret (a : A)
| Throw (message : string)                                   (* throw new Error(message) *)
| ConsoleLog (args : list (json num)) (k : prog A)
| Fetch (url : string) (init : RequestInit) (k : Response -> prog A)
| ResponseJson (response : Response) (k : json num -> prog A)
| StreamText (args : StreamTextArgs) (k : StreamTextResult -> prog A).

Arguments Ret {A} a.
Arguments Throw {A} message.
Arguments ConsoleLog {A} args k.
Arguments Fetch {A} url init k.
Arguments ResponseJson {A} response k.
Arguments StreamText {A} args k.

Fixpoint bind {A B : Type} (p : prog A) (f : A -> prog B) : prog B :=
  match p with
  | Ret a => f a
  | Throw e => Throw e
  | ConsoleLog args k => ConsoleLog args (bind k f)
  | Fetch url init k => Fetch url init (fun r => bind (k r) f)
  | ResponseJson r k => ResponseJson r (fun d => bind (k d) f)
  | StreamText args k => StreamText args (fun s => bind (k s) f)
  end.

(** *** Running a program against the collaborators *)

(** The two external services, as the handler sees them. *)
Record world := {
  retrieval : string -> RequestInit -> settled Response;     (* global fetch *)
  generation : StreamTextArgs -> settled StreamTextResult    (* streamText    *)
}.

(** What an observer of one request sees, in order. *)
Inductive event : Type :=
| EvLog (args : list (json num))
| EvFetchCall (url : string) (init : RequestInit)
| EvFetchSettled (result : settled Response)
| EvJsonSettled (result : settled (json num))
| EvStreamTextCall (args : StreamTextArgs)
| EvStreamTextSettled (result : settled StreamTextResult).

Definition emit {A : Type} (evs : list event) (r : list event * settled A)
  : list event * settled A :=
  ((evs ++ fst r)%list, snd r).

Fixpoint run {A : Type} (w : world) (p : prog A) : list event * settled A :=
  match p with
  | Ret a => ([], Fulfilled a)
  | Throw e => ([], Rejected e)
  | ConsoleLog args k => emit [EvLog args] (run w k)
  | Fetch url init k =>
      match retrieval w url init with
      | Fulfilled r =>
          emit [EvFetchCall url init; EvFetchSettled (Fulfilled r)] (run w (k r))
      | Rejected e =>
          ([EvFetchCall url init; EvFetchSettled (Rejected e)], Rejected e)
      end
  | ResponseJson r k =>
      match json_body r with
      | Fulfilled d => emit [EvJsonSettled (Fulfilled d)] (run w (k d))
      | Rejected e => ([EvJsonSettled (Rejected e)], Rejected e)
      end
  | StreamText args k =>
      match generation w args with
      | Fulfilled s =>
          emit [EvStreamTextCall args; EvStreamTextSettled (Fulfilled s)] (run w (k s))
      | Rejected e =>
          ([EvStreamTextCall args; EvStreamTextSettled (Rejected e)], Rejected e)
      end
  end.

(** [const v = process.env.X; if (!v) throw new Error(message)]: an absent
    variable and an empty one are both falsy. *)
Definition require (v : option string) (message : string) : prog string :=
  match v with
  | Some s => if String.eqb s EmptyString then Throw message else Ret s
  | None => Throw message
  end.

(** [!v] on an environment variable. *)
Definition unset (v : option string) : bool :=
  match v with
  | Some s => String.eqb s EmptyString
  | None => true
  end.

End Route.

Arguments CoreMessage num : clear implicits.
Arguments Response num : clear implicits.
Arguments StreamTextArgs num : clear implicits.
Arguments prog num A : clear implicits.
Arguments world num : clear implicits.
Arguments event num : clear implicits.
Arguments Ret {num A} a.
Arguments Throw {num A} message.
Arguments ConsoleLog {num A} args k.
Arguments Fetch {num A} url init k.
Arguments ResponseJson {num A} response k.
Arguments StreamText {num A} args k.

Notation "'await' x ':=' p 'in' q" := (bind p (fun x => q))
  (at level 10, x name, p at level 100, q at level 200).

(** ** src/unnamed/part_000 *)
Module Part000.
Section Handler.
Context {num : Type} `{JsNumber num}.

(** The template literal of the rewrite, with its two holes:
    [question] stands for [${messages[messages.length - 1].content}] and
    [chunks] for [${JSON.stringify(context)}]. *)
Definition prompt (question chunks : string) : string :=
  lines [
    EmptyString;
    "You are tasked with generating a treatment plan using provided chunks of information, consider first steps first before using medications. Your goal is to provide an accurate answer while citing your sources using a specific markdown format.";
    EmptyString;
    "Here is the question you need to answer:";
    "<question>";
    question;
    "</question>";
    EmptyString;
    "Below are chunks of information that you can use to answer the question. Each chunk is preceded by a ";
    "source identifier in the format [source=X&link=Y], where X is the source number and Y is the URL of the source:";
    EmptyString;
    "<chunks>";
    chunks;
    "</chunks>";
    EmptyString;
    "Your task is to answer the question using the information provided in these chunks. ";
    "When you use information from a specific chunk in your answer, you must cite it using a markdown link format. ";
    "The citation should appear at the end of the sentence where the information is used.";
    EmptyString;
    "If you cannot answer the question using the provided chunks, say " +:+ dquote +:+ "Sorry I don't know" +:+ dquote +:+ ".";
    EmptyString;
    "The citation format should be as follows:";
    "[Chunk source](URL)";
    EmptyString;
    "For example, if you're using information from the chunk labeled [source=3&link=https://example.com/page], your citation would look like this:";
    "[3](https://example.com/page) and would open a new tab to the source URL when clicked.";
    EmptyString
  ].

(** The fixed text of the template, cut at its two holes. *)
Definition before_question : string :=
  lines [
    EmptyString;
    "You are tasked with generating a treatment plan using provided chunks of information, consider first steps first before using medications. Your goal is to provide an accurate answer while citing your sources using a specific markdown format.";
    EmptyString;
    "Here is the question you need to answer:";
    "<question>";
    EmptyString
  ].

Definition before_chunks : string :=
  lines [
    EmptyString;
    "</question>";
    EmptyString;
    "Below are chunks of information that you can use to answer the question. Each chunk is preceded by a ";
    "source identifier in the format [source=X&link=Y], where X is the source number and Y is the URL of the source:";
    EmptyString;
    "<chunks>";
    EmptyString
  ].

Definition after_chunks : string :=
  lines [
    EmptyString;
    "</chunks>";
    EmptyString;
    "Your task is to answer the question using the information provided in these chunks. ";
    "When you use information from a specific chunk in your answer, you must cite it using a markdown link format. ";
    "The citation should appear at the end of the sentence where the information is used.";
    EmptyString;
    "If you cannot answer the question using the provided chunks, say " +:+ dquote +:+ "Sorry I don't know" +:+ dquote +:+ ".";
    EmptyString;
    "The citation format should be as follows:";
    "[Chunk source](URL)";
    EmptyString;
    "For example, if you're using information from the chunk labeled [source=3&link=https://example.com/page], your citation would look like this:";
    "[3](https://example.com/page) and would open a new tab to the source URL when clicked.";
    EmptyString
  ].

(** [retrieveData]: the three configuration checks, the payload, the one
    [fetch], the status check and the parsed body. *)
Definition retrieveData (env : process_env) (question : string)
    (messages : list (CoreMessage num)) : prog num (json num) :=
  await token := require (VECTORIZE_TOKEN env)
    "VECTORIZE_TOKEN is not set in the environment variables. Please add it to your environment settings (e.g. .env.develoment) file." in
  await pipelineRetrievalUrl := require (VECTORIZE_RETRIEVAL_URL env)
    "pipelineRetrievalUrl is not set. Please define the URL in the environment settings (e.g. in the file .env.development) before calling retrieveData." in
  await groqApiKey := require (GROQ_API_KEY env)
    "GROQ_API_KEY is not set in the environment variables. Please add it to your environment settings (e.g. .env.develoment) file." in
  let payload :=
    [("question", JStr question);
     ("numResults", JNum (num_of_Z 5));
     ("rerank", JBool true)] in
  let payload :=
    if Nat.ltb 0 (length messages)
    then (payload ++ [("context", JObj [("messages", JArr (List.map message_json messages))])])%list
    else payload in
  Fetch pipelineRetrievalUrl
    {| method := "POST";
       headers := [("Content-Type", "application/json"); ("Authorization", token)];
       body := JSON_stringify (JObj payload) |}
    (fun response =>
       if negb (ok response)
       then Throw ("Failed to fetch data: " +:+ statusText response)
       else ResponseJson response (fun data => Ret data)).

Definition system_instruction : string :=
  "You are the best Hypertension Doctor capable of generating the best treatment plan based on the patient overview. You always generate your responses as correctly structured, valid markdown.".

(** The update [messages[messages.length - 1].content = `...`]: the Turn at
    the last index keeps its role and gets the filled template. *)
Definition rewrite_last (context : json num) (m : CoreMessage num) : CoreMessage num :=
  {| role := role m;
     content := JStr (prompt (js_String (content m)) (JSON_stringify context)) |}.

Definition POST (env : process_env) (messages : list (CoreMessage num))
    : prog num HttpResponse :=
  await model := require (MODEL env)
    "MODEL is not set in the environment variables. Please add it to your environment settings (e.g. .env.develoment) file." in
  await context :=
    (if Nat.ltb 0 (length messages) then
       let previousMessages := take (length messages - 1) messages in
       match messages !! (length messages - 1) with
       | Some lastMessage => retrieveData env (js_String (content lastMessage)) previousMessages
       | None => Throw "TypeError: Cannot read properties of undefined (reading 'content')"
       end
     else
       ConsoleLog [JStr "No messages available, skipping retrieveData."] (Ret JNull)) in
  let messages :=
    if Nat.ltb 0 (length messages) && truthy context
    then alter (rewrite_last context) (length messages - 1) messages
    else messages in
  ConsoleLog [JStr "sending messages to the LLM"; JArr (List.map message_json messages)]
    (StreamText {| model := groq model; system := system_instruction; messages := messages |}
       (fun result => Ret (toDataStreamResponse result))).

End Handler.
End Part000.

(** ** src/unnamed/part_001 *)
Module Part001.
Section Handler.
Context {num : Type} `{JsNumber num}.

(** The template literal of the rewrite, with its two holes:
    [question] stands for [${messages[messages.length - 1].content}] and
    [chunks] for [${JSON.stringify(context)}]. *)
Definition prompt (question chunks : string) : string :=
  lines [
    EmptyString;
    "Generate a detailed treatment plan for the following patient. Your answer must follow a structured format and provide clear step-by-step recommendations before introducing medications.";
    EmptyString;
    "Output Structure:";
    EmptyString;
    "Patient Overview: Brief summary of the patient's condition.";
    "Lifestyle Modifications (First-Line Treatment, consider lifestyle modifications before medications)";
    "Dietary Changes: Provide a detailed and structured diet plan using Zambian foods, including specific foods to include and avoid (e.g., DASH Diet specifics).";
    "Physical Activity: Recommended detailed exercises with intensity and frequency.";
    "Weight Management Strategy: Target weight, expected reduction per week, and approach.";
    "Alcohol and Smoking: Limits and alternatives for patients struggling to quit.";
    "Pharmacological Intervention (If Lifestyle Fails to Achieve Target BP)";
    "Medication Options: Explain the first-line medications and alternatives based on patient profile (e.g., African ethnicity considerations).";
    "Monitoring & Follow-Up Plan";
    "BP Check Intervals: Frequency of follow-ups.";
    "Tests Required: What are the tests required according to guidelines.";
    "Special Considerations: Address ethnic, family history, and potential risks for progression to diabetes.";
    EmptyString;
    "Here is the patient info where you need to generate treatment plan:";
    EmptyString;
    "<question>";
    question;
    "</question>";
    EmptyString;
    "Below are chunks of information that you can use to answer the question. Each chunk is preceded by a ";
    "source identifier in the format [source=X&link=Y], where X is the source number and Y is the URL of the source:";
    EmptyString;
    "<chunks>";
    chunks;
    "</chunks>";
    EmptyString
  ].

(** The fixed text of the template, cut at its two holes. *)
Definition before_question : string :=
  lines [
    EmptyString;
    "Generate a detailed treatment plan for the following patient. Your answer must follow a structured format and provide clear step-by-step recommendations before introducing medications.";
    EmptyString;
    "Output Structure:";
    EmptyString;
    "Patient Overview: Brief summary of the patient's condition.";
    "Lifestyle Modifications (First-Line Treatment, consider lifestyle modifications before medications)";
    "Dietary Changes: Provide a detailed and structured diet plan using Zambian foods, including specific foods to include and avoid (e.g., DASH Diet specifics).";
    "Physical Activity: Recommended detailed exercises with intensity and frequency.";
    "Weight Management Strategy: Target weight, expected reduction per week, and approach.";
    "Alcohol and Smoking: Limits and alternatives for patients struggling to quit.";
    "Pharmacological Intervention (If Lifestyle Fails to Achieve Target BP)";
    "Medication Options: Explain the first-line medications and alternatives based on patient profile (e.g., African ethnicity considerations).";
    "Monitoring & Follow-Up Plan";
    "BP Check Intervals: Frequency of follow-ups.";
    "Tests Required: What are the tests required according to guidelines.";
    "Special Considerations: Address ethnic, family history, and potential risks for progression to diabetes.";
    EmptyString;
    "Here is the patient info where you need to generate treatment plan:";
    EmptyString;
    "<question>";
    EmptyString
  ].

Definition before_chunks : string :=
  lines [
    EmptyString;
    "</question>";
    EmptyString;
    "Below are chunks of information that you can use to answer the question. Each chunk is preceded by a ";
    "source identifier in the format [source=X&link=Y], where X is the source number and Y is the URL of the source:";
    EmptyString;
    "<chunks>";
    EmptyString
  ].

Definition after_chunks : string :=
  lines [EmptyString; "</chunks>"; EmptyString].

(** [retrieveData]: the three configuration checks, the payload, the one
    [fetch], the status check and the parsed body. *)
Definition retrieveData (env : process_env) (question : string)
    (messages : list (CoreMessage num)) : prog num (json num) :=
  await token := require (VECTORIZE_TOKEN env)
    "VECTORIZE_TOKEN is not set in the environment variables. Please add it to your environment settings (e.g. .env.develoment) file." in
  await pipelineRetrievalUrl := require (VECTORIZE_RETRIEVAL_URL env)
    "pipelineRetrievalUrl is not set. Please define the URL in the environment settings (e.g. in the file .env.development) before calling retrieveData." in
  await groqApiKey := require (GROQ_API_KEY env)
    "GROQ_API_KEY is not set in the environment variables. Please add it to your environment settings (e.g. .env.develoment) file." in
  let payload :=
    [("question", JStr question);
     ("numResults", JNum (num_of_Z 5));
     ("rerank", JBool true)] in
  let payload :=
    if Nat.ltb 0 (length messages)
    then (payload ++ [("context", JObj [("messages", JArr (List.map message_json messages))])])%list
    else payload in
  Fetch pipelineRetrievalUrl
    {| method := "POST";
       headers := [("Content-Type", "application/json"); ("Authorization", token)];
       body := JSON_stringify (JObj payload) |}
    (fun response =>
       if negb (ok response)
       then Throw ("Failed to fetch data: " +:+ statusText response)
       else ResponseJson response (fun data => Ret data)).

Definition system_instruction : string :=
  "You are the best Hypertension Doctor capable of generating the best treatment plan based on the patient overview. You always generate your responses as correctly structured, valid markdown.".

(** The update [messages[messages.length - 1].content = `...`]: the Turn at
    the last index keeps its role and gets the filled template. *)
Definition rewrite_last (context : json num) (m : CoreMessage num) : CoreMessage num :=
  {| role := role m;
     content := JStr (prompt (js_String (content m)) (JSON_stringify context)) |}.

Definition POST (env : process_env) (messages : list (CoreMessage num))
    : prog num HttpResponse :=
  await model := require (MODEL env)
    "MODEL is not set in the environment variables. Please add it to your environment settings (e.g. .env.develoment) file." in
  await context :=
    (if Nat.ltb 0 (length messages) then
       let previousMessages := take (length messages - 1) messages in
       match messages !! (length messages - 1) with
       | Some lastMessage => retrieveData env (js_String (content lastMessage)) previousMessages
       | None => Throw "TypeError: Cannot read properties of undefined (reading 'content')"
       end
     else
       ConsoleLog [JStr "No messages available, skipping retrieveData."] (Ret JNull)) in
  let messages :=
    if Nat.ltb 0 (length messages) && truthy context
    then alter (rewrite_last context) (length messages - 1) messages
    else messages in
  ConsoleLog [JStr "sending messages to the LLM"; JArr (List.map message_json messages)]
    (StreamText {| model := groq model; system := system_instruction; messages := messages |}
       (fun result => Ret (toDataStreamResponse result))).

End Handler.
End Part001.

(** ** The two parts side by side *)

Inductive part := P000 | P001.

Section Parts.
Context {num : Type} `{JsNumber num}.

Definition POST_of (p : part) : process_env -> list (CoreMessage num) -> prog num HttpResponse :=
  match p with
  | P000 => Part000.POST
  | P001 => Part001.POST
  end.

Definition prompt_of (p : part) : string -> string -> string :=
  match p with
  | P000 => Part000.prompt
  | P001 => Part001.prompt
  end.

Definition rewrite_last_of (p : part) : json num -> CoreMessage num -> CoreMessage num :=
  match p with
  | P000 => Part000.rewrite_last
  | P001 => Part001.rewrite_last
  end.

Definition before_question_of (p : part) : string :=
  match p with
  | P000 => Part000.before_question
  | P001 => Part001.before_question
  end.

Definition before_chunks_of (p : part) : string :=
  match p with
  | P000 => Part000.before_chunks
  | P001 => Part001.before_chunks
  end.

Definition after_chunks_of (p : part) : string :=
  match p with
  | P000 => Part000.after_chunks
  | P001 => Part001.after_chunks
  end.

(** All of the fixed text of a template. *)
Definition fixed_text_of (p : part) : string :=
  before_question_of p +:+ before_chunks_of p +:+ after_chunks_of p.

(** *** Reading a trace *)

(** What is observed while the handler serves [msgs], and how it ends. *)
Definition trace_of (p : part) (env : process_env) (msgs : list (CoreMessage num))
    (w : world num) : list (event num) :=
  fst (run w (POST_of p env msgs)).

Definition outcome_of (p : part) (env : process_env) (msgs : list (CoreMessage num))
    (w : world num) : settled HttpResponse :=
  snd (run w (POST_of p env msgs)).

Definition fetch_calls (tr : list (event num)) : list (string * RequestInit) :=
  omap (fun e => match e with EvFetchCall url init => Some (url, init) | _ => None end) tr.

Definition generation_calls (tr : list (event num)) : list (StreamTextArgs num) :=
  omap (fun e => match e with EvStreamTextCall args => Some args | _ => None end) tr.

(** Retrieval handed [d] back to the handler. *)
Definition retrieved (tr : list (event num)) (d : json num) : Prop :=
  In (EvJsonSettled (Fulfilled d)) tr.

Definition is_fetch_event (e : event num) : bool :=
  match e with
  | EvFetchCall _ _ | EvFetchSettled _ | EvJsonSettled _ => true
  | _ => false
  end.

(** What a generation call carries apart from the content of the last
    Turn: the model, the system instruction, the roles, the prior Turns. *)
Definition frame (args : StreamTextArgs num)
  : LanguageModel * string * list string * list (CoreMessage num) :=
  (model args, system args, List.map role (messages args),
   take (length (messages args) - 1) (messages args)).

(** *** The messages of the configuration errors *)

Definition MODEL_error : string :=
  "MODEL is not set in the environment variables. Please add it to your environment settings (e.g. .env.develoment) file.".
Definition TOKEN_error : string :=
  "VECTORIZE_TOKEN is not set in the environment variables. Please add it to your environment settings (e.g. .env.develoment) file.".
Definition URL_error : string :=
  "pipelineRetrievalUrl is not set. Please define the URL in the environment settings (e.g. in the file .env.development) before calling retrieveData.".
Definition KEY_error : string :=
  "GROQ_API_KEY is not set in the environment variables. Please add it to your environment settings (e.g. .env.develoment) file.".

(** The error of the first required value that is missing, in the order
    the checks are met on a request that reaches all of them. *)
Definition config_error (env : process_env) : option string :=
  if unset (MODEL env) then Some MODEL_error
  else if unset (VECTORIZE_TOKEN env) then Some TOKEN_error
  else if unset (VECTORIZE_RETRIEVAL_URL env) then Some URL_error
  else if unset (GROQ_API_KEY env) then Some KEY_error
  else None.

Definition any_unset (env : process_env) : bool :=
  unset (MODEL env) || unset (VECTORIZE_TOKEN env)
  || unset (VECTORIZE_RETRIEVAL_URL env) || unset (GROQ_API_KEY env).

(** *** The pieces of a run *)

(** The request [retrieveData] sends for the question [last] after [prior]. *)
Definition retrieval_payload (prior : list (CoreMessage num)) (last : CoreMessage num)
  : list (string * json num) :=
  ([("question", JStr (js_String (content last)));
    ("numResults", JNum (num_of_Z 5));
    ("rerank", JBool true)]
   ++ match prior with
      | [] => []
      | _ :: _ => [("context", JObj [("messages", JArr (List.map message_json prior))])]
      end)%list.

Definition retrieval_request (token : string) (prior : list (CoreMessage num))
    (last : CoreMessage num) : RequestInit :=
  {| method := "POST";
     headers := [("Content-Type", "application/json"); ("Authorization", token)];
     body := JSON_stringify (JObj (retrieval_payload prior last)) |}.

(** The Conversation handed to generation once retrieval returned [d]. *)
Definition forwarded (p : part) (msgs : list (CoreMessage num)) (d : json num)
  : list (CoreMessage num) :=
  if truthy d then alter (rewrite_last_of p d) (length msgs - 1) msgs else msgs.

Definition generation_args (m : string) (msgs : list (CoreMessage num)) : StreamTextArgs num :=
  {| model := groq m; system := Part000.system_instruction; messages := msgs |}.

(** The tail of every run that reaches the language model. *)
Definition generate (w : world num) (m : string) (msgs : list (CoreMessage num))
  : list (event num) * settled HttpResponse :=
  ([EvLog [JStr "sending messages to the LLM"; JArr (List.map message_json msgs)];
    EvStreamTextCall (generation_args m msgs);
    EvStreamTextSettled (generation w (generation_args m msgs))],
   match generation w (generation_args m msgs) with
   | Fulfilled s => Fulfilled (toDataStreamResponse s)
   | Rejected e => Rejected e
   end).

(** *** All the runs of the handler

    [route_run p env msgs w o]: [o] is the trace and outcome of one of the
    nine ways a request can go. *)
Inductive route_run (p : part) (env : process_env) (msgs : list (CoreMessage num))
    (w : world num) : list (event num) * settled HttpResponse -> Prop :=
| run_no_model :
    unset (MODEL env) = true ->
    route_run p env msgs w ([], Rejected MODEL_error)
| run_empty m :
    MODEL env = Some m -> m <> EmptyString -> msgs = [] ->
    route_run p env msgs w
      (EvLog [JStr "No messages available, skipping retrieveData."] :: fst (generate w m []),
       snd (generate w m []))
| run_no_token m prior final :
    MODEL env = Some m -> m <> EmptyString -> msgs = (prior ++ [final])%list ->
    unset (VECTORIZE_TOKEN env) = true ->
    route_run p env msgs w ([], Rejected TOKEN_error)
| run_no_url m prior final :
    MODEL env = Some m -> m <> EmptyString -> msgs = (prior ++ [final])%list ->
    unset (VECTORIZE_TOKEN env) = false ->
    unset (VECTORIZE_RETRIEVAL_URL env) = true ->
    route_run p env msgs w ([], Rejected URL_error)
| run_no_key m prior final :
    MODEL env = Some m -> m <> EmptyString -> msgs = (prior ++ [final])%list ->
    unset (VECTORIZE_TOKEN env) = false ->
    unset (VECTORIZE_RETRIEVAL_URL env) = false ->
    unset (GROQ_API_KEY env) = true ->
    route_run p env msgs w ([], Rejected KEY_error)
| run_fetch_rejected m prior final token url e :
    MODEL env = Some m -> m <> EmptyString -> msgs = (prior ++ [final])%list ->
    VECTORIZE_TOKEN env = Some token -> token <> EmptyString ->
    VECTORIZE_RETRIEVAL_URL env = Some url -> url <> EmptyString ->
    unset (GROQ_API_KEY env) = false ->
    retrieval w url (retrieval_request token prior final) = Rejected e ->
    route_run p env msgs w
      ([EvFetchCall url (retrieval_request token prior final); EvFetchSettled (Rejected e)],
       Rejected e)
| run_not_ok m prior final token url r :
    MODEL env = Some m -> m <> EmptyString -> msgs = (prior ++ [final])%list ->
    VECTORIZE_TOKEN env = Some token -> token <> EmptyString ->
    VECTORIZE_RETRIEVAL_URL env = Some url -> url <> EmptyString ->
    unset (GROQ_API_KEY env) = false ->
    retrieval w url (retrieval_request token prior final) = Fulfilled r ->
    ok r = false ->
    route_run p env msgs w
      ([EvFetchCall url (retrieval_request token prior final); EvFetchSettled (Fulfilled r)],
       Rejected ("Failed to fetch data: " +:+ statusText r))
| run_json_rejected m prior final token url r e :
    MODEL env = Some m -> m <> EmptyString -> msgs = (prior ++ [final])%list ->
    VECTORIZE_TOKEN env = Some token -> token <> EmptyString ->
    VECTORIZE_RETRIEVAL_URL env = Some url -> url <> EmptyString ->
    unset (GROQ_API_KEY env) = false ->
    retrieval w url (retrieval_request token prior final) = Fulfilled r ->
    ok r = true -> json_body r = Rejected e ->
    route_run p env msgs w
      ([EvFetchCall url (retrieval_request token prior final); EvFetchSettled (Fulfilled r);
        EvJsonSettled (Rejected e)],
       Rejected e)
| run_generated m prior final token url r d :
    MODEL env = Some m -> m <> EmptyString -> msgs = (prior ++ [final])%list ->
    VECTORIZE_TOKEN env = Some token -> token <> EmptyString ->
    VECTORIZE_RETRIEVAL_URL env = Some url -> url <> EmptyString ->
    unset (GROQ_API_KEY env) = false ->
    retrieval w url (retrieval_request token prior final) = Fulfilled r ->
    ok r = true -> json_body r = Fulfilled d ->
    route_run p env msgs w
      (EvFetchCall url (retrieval_request token prior final) :: EvFetchSettled (Fulfilled r)
         :: EvJsonSettled (Fulfilled d) :: fst (generate w m (forwarded p msgs d)),
       snd (generate w m (forwarded p msgs d))).

End Parts.

(** ** src/src/app/page.tsx

    The chat client: the JSON pretty-printer of the message dialog
    ([formatJSON]), the link renderer handed to the markdown component, and
    the state the page keeps with its event handlers.  The [useChat] hook is
    library code: its state is a record and its two handlers are taken as
    given. *)
Module Page.

Record PlaceholderOption := {
  emoji : string;
  text : string
}.

Definition placeholderOptions : list PlaceholderOption :=
  [ {| emoji := "⚡️"; text := "What is Hypertension?" |};
    {| emoji := "🤖"; text := "How do I improve my health?" |};
    {| emoji := "🌟"; text := "What is Cardiovascular Disease?" |} ].

(** *** [formatJSON] *)

(** [s.repeat(count)] *)
Fixpoint repeat_string (s : string) (count : nat) : string :=
  match count with
  | O => EmptyString
  | S n => s +:+ repeat_string s n
  end.

(** [s.replace(/c/g, replacement)] for a replacement without [$]. *)
Fixpoint replace_all (c : ascii) (replacement : string) (s : string) : string :=
  match s with
  | EmptyString => EmptyString
  | String x rest =>
      (if Ascii.eqb x c then replacement else String x EmptyString)
      +:+ replace_all c replacement rest
  end.

(** The chain of five replacements applied to a string value. *)
Definition escaped (value : string) : string :=
  replace_all "039"%char "&#039;"
    (replace_all "034"%char "&quot;"
       (replace_all ">"%char "&gt;"
          (replace_all "<"%char "&lt;"
             (replace_all "&"%char "&amp;" value)))).

(** [<span class="cls">body</span>] *)
Definition span (cls body : string) : string :=
  "<span class=" +:+ dquote +:+ cls +:+ dquote +:+ ">" +:+ body +:+ "</span>".

Section FormatJSON.
Context {num : Type} `{JsNumber num}.

(** A JavaScript value as [processValue] tells them apart (its parameter
    has type [unknown]); [VOther] is anything past the last test, a function,
    a symbol or a bigint, given by its [String(value)]. *)
Inductive unknown : Type :=
| VNull
| VUndefined
| VBool (b : bool)
| VNum (n : num)
| VStr (s : string)
| VArr (items : list unknown)
| VObj (entries : list (string * unknown))    (* Object.entries(value) *)
| VOther (shown : string).

Fixpoint processValue (value : unknown) (level : nat) : string :=
  let indent := repeat_string "  " level in
  match value with
  | VNull => span "text-gray-400" "null"
  | VUndefined => span "text-red-400" "undefined"
  | VArr items =>
      match items with
      | [] => span "text-gray-300" "[]"
      | _ :: _ =>
          let rendered :=
            join ("," +:+ nl)
              (List.map (fun item => indent +:+ "  " +:+ processValue item (level + 1)) items) in
          span "text-gray-300" "[" +:+ nl +:+ rendered +:+ nl
            +:+ indent +:+ span "text-gray-300" "]"
      end
  | VObj entries =>
      match entries with
      | [] => span "text-gray-300" "{}"
      | _ :: _ =>
          let formattedEntries :=
            join ("," +:+ nl)
              (List.map (fun kv =>
                           let formattedKey :=
                             span "text-blue-400" (dquote +:+ fst kv +:+ dquote) in
                           indent +:+ "  " +:+ formattedKey +:+ ": "
                             +:+ processValue (snd kv) (level + 1))
                        entries) in
          span "text-gray-300" "{" +:+ nl +:+ formattedEntries +:+ nl
            +:+ indent +:+ span "text-gray-300" "}"
      end
  | VStr s => span "text-green-400" (dquote +:+ escaped s +:+ dquote)
  | VNum n => span "text-yellow-400" (num_to_string n)
  | VBool b => span "text-purple-400" (if b then "true" else "false")
  | VOther shown => span "text-red-400" shown
  end.

Definition formatJSON (obj : unknown) : string :=
  "<pre class=" +:+ dquote +:+ "font-mono text-sm whitespace-pre" +:+ dquote +:+ ">"
    +:+ processValue obj 0 +:+ "</pre>".

End FormatJSON.

Arguments unknown num : clear implicits.

(** *** The link renderer of the markdown component *)

(** The [children] prop: absent, a single text, or an array of nodes, each
    node given by its [toString()] ([None] for a null or undefined node). *)
Inductive ReactChildren :=
| NoChildren
| TextChild (s : string)
| ChildArray (nodes : list (option string)).

(** [children?.[0]?.toString()], [None] for [undefined]. *)
Definition first_child (children : ReactChildren) : option string :=
  match children with
  | NoChildren => None
  | TextChild EmptyString => None
  | TextChild (String c _) => Some (String c EmptyString)
  | ChildArray [] => None
  | ChildArray (node :: _) => node
  end.

Definition is_digit (c : ascii) : bool :=
  Nat.leb 48 (nat_of_ascii c) && Nat.leb (nat_of_ascii c) 57.

Fixpoint all_digits (s : string) : bool :=
  match s with
  | EmptyString => true
  | String c rest => is_digit c && all_digits rest
  end.

(** [/^\d+$/.test(x)]; an undefined argument is tested as the text
    "undefined". *)
Definition test_digits (x : option string) : bool :=
  match x with
  | None => false
  | Some EmptyString => false
  | Some s => all_digits s
  end.

(** The attributes of the rendered [<a>]. *)
Record Anchor := {
  href : option string;
  target : option string;
  rel : option string;
  className : string;
  anchor_children : ReactChildren
}.

Definition a (link : option string) (children : ReactChildren) : Anchor :=
  let isFootnoteRef := test_digits (first_child children) in
  if isFootnoteRef then
    {| href := link; target := None; rel := None;
       className := "text-blue-400 hover:underline"; anchor_children := children |}
  else
    {| href := link; target := Some "_blank"; rel := Some "noopener noreferrer";
       className := "text-blue-400 hover:underline"; anchor_children := children |}.

(** *** The state of the page and its handlers *)

(** A message of the hook, by the fields the page reads. *)
Record Message := {
  id : string;
  role : string;
  content : string
}.

(** What [useChat] holds. *)
Record Chat := {
  messages : list Message;
  input : string
}.

(** The two handlers of [useChat] the page calls. *)
Class UseChat := {
  handleInputChange : string -> Chat -> Chat;    (* by the [target.value] of the event *)
  handleSubmit : Chat -> Chat
}.

(** The three numbers [handleScroll] reads from the messages container
    (pixels, possibly fractional). *)
Record ScrollMetrics := {
  scrollTop : Q;
  scrollHeight : Q;
  clientHeight : Q
}.

Record PageState := {
  chat : Chat;
  selectedMessage : option Message;
  selectedOption : option PlaceholderOption;
  shouldAutoScroll : bool;
  showScrollButton : bool;
  showPlaceholders : bool
}.

Definition mounted (initialChat : Chat) : PageState :=
  {| chat := initialChat;
     selectedMessage := None;
     selectedOption := None;
     shouldAutoScroll := true;
     showScrollButton := false;
     showPlaceholders := true |}.

Definition setMessages (ms : list Message) (st : PageState) : PageState :=
  {| chat := {| messages := ms; input := input (chat st) |};
     selectedMessage := selectedMessage st;
     selectedOption := selectedOption st;
     shouldAutoScroll := shouldAutoScroll st;
     showScrollButton := showScrollButton st;
     showPlaceholders := showPlaceholders st |}.

Definition setChat (c : Chat) (st : PageState) : PageState :=
  {| chat := c;
     selectedMessage := selectedMessage st;
     selectedOption := selectedOption st;
     shouldAutoScroll := shouldAutoScroll st;
     showScrollButton := showScrollButton st;
     showPlaceholders := showPlaceholders st |}.

Definition setSelectedMessage (m : option Message) (st : PageState) : PageState :=
  {| chat := chat st;
     selectedMessage := m;
     selectedOption := selectedOption st;
     shouldAutoScroll := shouldAutoScroll st;
     showScrollButton := showScrollButton st;
     showPlaceholders := showPlaceholders st |}.

Definition setSelectedOption (o : option PlaceholderOption) (st : PageState) : PageState :=
  {| chat := chat st;
     selectedMessage := selectedMessage st;
     selectedOption := o;
     shouldAutoScroll := shouldAutoScroll st;
     showScrollButton := showScrollButton st;
     showPlaceholders := showPlaceholders st |}.

Definition setShouldAutoScroll (b : bool) (st : PageState) : PageState :=
  {| chat := chat st;
     selectedMessage := selectedMessage st;
     selectedOption := selectedOption st;
     shouldAutoScroll := b;
     showScrollButton := showScrollButton st;
     showPlaceholders := showPlaceholders st |}.

Definition setShowScrollButton (b : bool) (st : PageState) : PageState :=
  {| chat := chat st;
     selectedMessage := selectedMessage st;
     selectedOption := selectedOption st;
     shouldAutoScroll := shouldAutoScroll st;
     showScrollButton := b;
     showPlaceholders := showPlaceholders st |}.

Definition setShowPlaceholders (b : bool) (st : PageState) : PageState :=
  {| chat := chat st;
     selectedMessage := selectedMessage st;
     selectedOption := selectedOption st;
     shouldAutoScroll := shouldAutoScroll st;
     showScrollButton := showScrollButton st;
     showPlaceholders := b |}.

Section Handlers.
Context `{UseChat}.

Definition handleNewChat (st : PageState) : PageState :=
  setShowPlaceholders true (setMessages [] st).

(** [container] is [messagesContainerRef.current]. *)
Definition handleScroll (container : option ScrollMetrics) (st : PageState) : PageState :=
  match container with
  | None => st
  | Some m =>
      let isAtBottom :=
        negb (Qle_bool 10 (Qabs (scrollHeight m - clientHeight m - scrollTop m)%Q)) in
      setShowScrollButton (negb isAtBottom) (setShouldAutoScroll isAtBottom st)
  end.

Definition handleOptionSelect (option : PlaceholderOption) (st : PageState) : PageState :=
  let st := setSelectedOption (Some option) st in
  let st := setChat (handleInputChange (text option) (chat st)) st in
  let st := setShowPlaceholders false st in
  setChat (handleSubmit (chat st)) st.

(** What can happen to the page: the clicks and scrolls it handles itself,
    the input box and the form wired to the hook, and any change the hook
    makes on its own while an answer streams in. *)
Inductive PageEvent :=
| NewChatClicked
| Scrolled (container : option ScrollMetrics)
| OptionClicked (option : PlaceholderOption)
| ViewDetailsClicked (message : Message)
| DialogClosed
| InputChanged (value : string)
| FormSubmitted
| HookUpdated (update : Chat -> Chat).

Definition handle (st : PageState) (e : PageEvent) : PageState :=
  match e with
  | NewChatClicked => handleNewChat st
  | Scrolled container => handleScroll container st
  | OptionClicked option => handleOptionSelect option st
  | ViewDetailsClicked message => setSelectedMessage (Some message) st
  | DialogClosed => setSelectedMessage None st
  | InputChanged value => setChat (handleInputChange value (chat st)) st
  | FormSubmitted => setChat (handleSubmit (chat st)) st
  | HookUpdated update => setChat (update (chat st)) st
  end.

Definition after (events : list PageEvent) (st : PageState) : PageState :=
  fold_left handle events st.

(** [showPlaceholders && messages.length === 0]: the quick-start buttons
    are rendered. *)
Definition placeholders_rendered (st : PageState) : bool :=
  showPlaceholders st && Nat.eqb (length (messages (chat st))) 0.

End Handlers.

End Page.

(** ** Notions used to state the properties of the client *)

(** The text that stands for one character of a string value once it went
    through the five replacements of [formatJSON]. *)
Definition html_entity (c : ascii) : string :=
  if Ascii.eqb c "&"%char then "&amp;"
  else if Ascii.eqb c "<"%char then "&lt;"
  else if Ascii.eqb c ">"%char then "&gt;"
  else if Ascii.eqb c "034"%char then "&quot;"
  else if Ascii.eqb c "039"%char then "&#039;"
  else String c EmptyString.

(** One pass over a string, each character replaced on its own. *)
Fixpoint escape_each (s : string) : string :=
  match s with
  | EmptyString => EmptyString
  | String c rest => html_entity c +:+ escape_each rest
  end.

(** The characters that open a tag or close an attribute in HTML. *)
Definition html_special (c : ascii) : bool :=
  Ascii.eqb c "<"%char || Ascii.eqb c ">"%char
  || Ascii.eqb c "034"%char || Ascii.eqb c "039"%char.


Definition is_new_chat (e : Page.PageEvent) : bool :=
  match e with
  | Page.NewChatClicked => true
  | _ => false
  end.

(** ** Concrete requests *)

Definition env_complete : process_env :=
  {| MODEL := Some "llama-3.3-70b-versatile";
     VECTORIZE_TOKEN := Some "secret-token";
     VECTORIZE_RETRIEVAL_URL := Some "https://retrieval.example/pipeline";
     GROQ_API_KEY := Some "gsk-key" |}.

(** Everything is configured but the retrieval credential. *)
Definition env_no_token : process_env :=
  {| MODEL := Some "llama-3.3-70b-versatile";
     VECTORIZE_TOKEN := None;
     VECTORIZE_RETRIEVAL_URL := Some "https://retrieval.example/pipeline";
     GROQ_API_KEY := Some "gsk-key" |}.

Definition question1 : string := "What is Hypertension?".

Definition user_turn (text : string) : CoreMessage Z :=
  {| role := "user"; content := JStr text |}.

Definition assistant_turn (text : string) : CoreMessage Z :=
  {| role := "assistant"; content := JStr text |}.

Definition answer : StreamTextResult := TextStream ["Lifestyle "; "first."].

(** Retrieval answers 200 with the body [d]; generation streams [answer]. *)
Definition world_returning (d : json Z) : world Z :=
  {| retrieval := fun _ _ =>
       Fulfilled {| ok := true; statusText := "OK"; json_body := Fulfilled d |};
     generation := fun _ => Fulfilled answer |}.

(** Retrieval answers 500. *)
Definition world_failing : world Z :=
  {| retrieval := fun _ _ =>
       Fulfilled {| ok := false; statusText := "Internal Server Error";
                    json_body := Rejected "Unexpected end of JSON input" |};
     generation := fun _ => Fulfilled answer |}.

Definition two_chunks : json Z :=
  JArr [JObj [("source", JNum 1%Z); ("link", JStr "https://a.example"); ("text", JStr "salt")];
        JObj [("source", JNum 2%Z); ("link", JStr "https://b.example"); ("text", JStr "exercise")]].

(** A retrieval result whose only chunk carries neither an index nor a URL. *)
Definition untagged_chunks : json Z :=
  JArr [JObj [("text", JStr "Reduce salt intake.")]].

(** The retrieval service cannot be reached. *)
Definition world_unreachable : world Z :=
  {| retrieval := fun _ _ => Rejected "fetch failed";
     generation := fun _ => Fulfilled answer |}.

(** Retrieval answers 200 with a body that is not JSON. *)
Definition world_bad_body : world Z :=
  {| retrieval := fun _ _ =>
       Fulfilled {| ok := true; statusText := "OK";
                    json_body := Rejected "Unexpected token < in JSON at position 0" |};
     generation := fun _ => Fulfilled answer |}.

(** Retrieval returns two chunks, the language model is down. *)
Definition world_model_down : world Z :=
  {| retrieval := fun _ _ =>
       Fulfilled {| ok := true; statusText := "OK"; json_body := Fulfilled two_chunks |};
     generation := fun _ => Rejected "model unavailable" |}.


(** A hook that stores the typed text and, on submission of a non-empty
    input, appends it as a user message and clears the input. *)
Definition hook_model : Page.UseChat :=
  {| Page.handleInputChange := fun value c =>
       {| Page.messages := Page.messages c; Page.input := value |};
     Page.handleSubmit := fun c =>
       if String.eqb (Page.input c) EmptyString then c
       else {| Page.messages :=
                 (Page.messages c ++ [{| Page.id := "m"; Page.role := "user";
                                         Page.content := Page.input c |}])%list;
               Page.input := EmptyString |} |}.

Definition page_mounted : Page.PageState :=
  Page.mounted {| Page.messages := []; Page.input := EmptyString |}.

(** ** Sanity checks of the JavaScript primitives *)

Example stringify_sample :
  JSON_stringify (JObj [("a", JArr [JNum 1%Z; JNull; JStr ("x" +:+ dquote +:+ nl)]); ("b", JBool true)])
  = "{" +:+ dquote +:+ "a" +:+ dquote +:+ ":[1,null," +:+ dquote +:+ "x" +:+ backslash +:+ dquote
        +:+ backslash +:+ "n" +:+ dquote +:+ "]," +:+ dquote +:+ "b" +:+ dquote +:+ ":true}".
Proof. vm_compute. reflexivity. Qed.

Example String_sample :
  js_String (JArr [JNum 1%Z; JNull; JObj []; JStr "x"]) = "1,,[object Object],x".
Proof. vm_compute. reflexivity. Qed.

(** ** Facts about text *)

Section Text.

Lemma append_nil (b : string) : EmptyString +:+ b = b.
Proof. reflexivity. Qed.

Lemma append_cons (x : ascii) (a b : string) : String x a +:+ b = String x (a +:+ b).
Proof. reflexivity. Qed.

Lemma append_assoc (a b c : string) : (a +:+ b) +:+ c = a +:+ (b +:+ c).
Proof.
  induction a as [|x a IH]; [reflexivity|].
  now rewrite !append_cons, IH.
Qed.

Lemma append_empty_r (a : string) : a +:+ EmptyString = a.
Proof.
  induction a as [|x a IH]; [reflexivity|].
  now rewrite append_cons, IH.
Qed.

Lemma occurs_in_refl (s : string) : occurs_in s s.
Proof. exists EmptyString, EmptyString. now rewrite append_nil, append_empty_r. Qed.

Lemma occurs_in_app_l (n a b : string) : occurs_in n a -> occurs_in n (a +:+ b).
Proof.
  intros (pre & post & ->). exists pre, (post +:+ b).
  now rewrite !append_assoc.
Qed.

Lemma occurs_in_app_r (n a b : string) : occurs_in n b -> occurs_in n (a +:+ b).
Proof.
  intros (pre & post & ->). exists (a +:+ pre), post.
  now rewrite !append_assoc.
Qed.

Lemma occurs_in_trans (a b c : string) : occurs_in a b -> occurs_in b c -> occurs_in a c.
Proof.
  intros (p1 & q1 & ->) (p2 & q2 & ->).
  exists (p2 +:+ p1), (q1 +:+ q2). now rewrite !append_assoc.
Qed.

Lemma join_cons (sep s : string) (rest : list string) :
  rest <> [] -> join sep (s :: rest) = s +:+ sep +:+ join sep rest.
Proof. destruct rest; [congruence|reflexivity]. Qed.

(** Every item of a joined list occurs in the result. *)
Lemma occurs_in_join (sep s : string) (items : list string) :
  In s items -> occurs_in s (join sep items).
Proof.
  induction items as [|x rest IH]; [intros []|].
  intros [-> | Hin].
  - destruct rest; [apply occurs_in_refl|].
    cbn [join]. apply occurs_in_app_l, occurs_in_refl.
  - destruct rest as [|y rest']; [destruct Hin|].
    rewrite join_cons by discriminate.
    apply occurs_in_app_r, occurs_in_app_r, IH, Hin.
Qed.

Lemma startsWith_app (n post : string) : startsWith n (n +:+ post) = true.
Proof.
  induction n as [|c n IH]; [reflexivity|].
  rewrite append_cons. simpl. now rewrite Ascii.eqb_refl, IH.
Qed.

Lemma startsWith_inv (n h : string) :
  startsWith n h = true -> exists post, h = n +:+ post.
Proof.
  revert h. induction n as [|c n IH]; intros h; simpl.
  - intros _. now exists h.
  - destruct h as [|b h]; [discriminate|].
    intros E. apply andb_true_iff in E as [E1 E2].
    apply Ascii.eqb_eq in E1 as ->.
    destruct (IH _ E2) as (post & ->). exists post. now rewrite append_cons.
Qed.

(** [includes] decides [occurs_in]. *)
Lemma includes_occurs (n h : string) : includes n h = true <-> occurs_in n h.
Proof.
  split.
  - induction h as [|c h IH]; simpl.
    + rewrite orb_false_r. intros E. destruct (startsWith_inv _ _ E) as (post & ->).
      now exists EmptyString, post.
    + intros E. apply orb_true_iff in E as [E | E].
      * destruct (startsWith_inv _ _ E) as (post & Hp). exists EmptyString, post. exact Hp.
      * destruct (IH E) as (pre & post & ->). exists (String c pre), post.
        now rewrite append_cons.
  - intros (pre & post & ->). induction pre as [|c pre IH].
    + rewrite append_nil.
      destruct (n +:+ post) eqn:E; simpl; rewrite <- E, startsWith_app; reflexivity.
    + rewrite append_cons. simpl. rewrite IH. apply orb_true_r.
Qed.

Lemma not_includes (n h : string) : includes n h = false -> ~ occurs_in n h.
Proof. intros E O. apply includes_occurs in O. congruence. Qed.

End Text.

(** ** Facts about the rewritten prompt *)

Section Prompt.
Context {num : Type} `{JsNumber num}.

Lemma question_in_prompt (p : part) (question chunks : string) :
  occurs_in question (prompt_of p question chunks).
Proof.
  destruct p; apply occurs_in_join; simpl; tauto.
Qed.

Lemma chunks_in_prompt (p : part) (question chunks : string) :
  occurs_in chunks (prompt_of p question chunks).
Proof.
  destruct p; apply occurs_in_join; simpl; tauto.
Qed.

(** The serialization of an array holds the serialization of each item. *)
Lemma item_in_stringify (c : json num) (items : list (json num)) :
  In c items -> occurs_in (JSON_stringify c) (JSON_stringify (JArr items)).
Proof.
  intros Hin. cbn [JSON_stringify].
  apply occurs_in_app_r, occurs_in_app_l, occurs_in_join.
  now apply in_map.
Qed.

End Prompt.

(** ** Every run of [POST] is one of the nine *)

Section RunAnalysis.
Context {num : Type} `{JsNumber num}.

Lemma unset_false (v : option string) :
  unset v = false -> exists s, v = Some s /\ s <> EmptyString /\ String.eqb s EmptyString = false.
Proof.
  destruct v as [s|]; simpl; [|discriminate].
  intros E. exists s. repeat split; trivial.
  intros ->. discriminate.
Qed.

Lemma unset_Some (s : string) : s <> EmptyString -> unset (Some s) = false.
Proof. intros Hs. simpl. now apply String.eqb_neq. Qed.

Lemma unset_cases (v : option string) :
  unset v = true \/ exists s, v = Some s /\ s <> EmptyString /\ String.eqb s EmptyString = false.
Proof.
  destruct (unset v) eqn:E; [now left|right; now apply unset_false].
Qed.

Lemma require_unset (v : option string) (msg : string) :
  unset v = true -> require (num := num) v msg = Throw msg.
Proof. destruct v as [s|]; simpl; [intros ->|]; reflexivity. Qed.

Lemma last_index_snoc (prior : list (CoreMessage num)) (last : CoreMessage num) :
  length (prior ++ [last])%list - 1 = length prior.
Proof. rewrite length_app. simpl. lia. Qed.

Lemma lookup_last_snoc (prior : list (CoreMessage num)) (last : CoreMessage num) :
  (prior ++ [last])%list !! (length (prior ++ [last])%list - 1) = Some last.
Proof. rewrite last_index_snoc. apply list_lookup_middle. reflexivity. Qed.

Lemma take_last_snoc (prior : list (CoreMessage num)) (last : CoreMessage num) :
  take (length (prior ++ [last])%list - 1) (prior ++ [last])%list = prior.
Proof. rewrite last_index_snoc. apply take_app_length. Qed.

Lemma nonempty_snoc (prior : list (CoreMessage num)) (last : CoreMessage num) :
  Nat.ltb 0 (length (prior ++ [last])%list) = true.
Proof. apply Nat.ltb_lt. rewrite length_app. simpl. lia. Qed.

Lemma alter_last_snoc (f : CoreMessage num -> CoreMessage num)
    (prior : list (CoreMessage num)) (last : CoreMessage num) :
  alter f (length (prior ++ [last])%list - 1) (prior ++ [last])%list = (prior ++ [f last])%list.
Proof.
  rewrite last_index_snoc.
  replace (length prior) with (length prior + 0) by lia.
  rewrite (alter_app_r f prior [last] 0). reflexivity.
Qed.

Lemma forwarded_snoc (p : part) (prior : list (CoreMessage num)) (last : CoreMessage num)
    (d : json num) :
  forwarded p (prior ++ [last])%list d
  = if truthy d then (prior ++ [rewrite_last_of p d last])%list else (prior ++ [last])%list.
Proof. unfold forwarded. now rewrite alter_last_snoc. Qed.

Lemma snoc_cases (msgs : list (CoreMessage num)) :
  msgs = [] \/ exists prior last, msgs = (prior ++ [last])%list.
Proof.
  destruct msgs as [|a l] using rev_ind; [now left|right; eauto].
Qed.

(** The runs of [retrieveData], once the three values are there. *)
Lemma retrieveData_payload (prior : list (CoreMessage num)) (last : CoreMessage num) :
  (if Nat.ltb 0 (length prior)
   then ([("question", JStr (js_String (content last)));
          ("numResults", JNum (num_of_Z 5)); ("rerank", JBool true)]
         ++ [("context", JObj [("messages", JArr (List.map message_json prior))])])%list
   else [("question", JStr (js_String (content last)));
         ("numResults", JNum (num_of_Z 5)); ("rerank", JBool true)])
  = retrieval_payload prior last.
Proof. destruct prior; reflexivity. Qed.

Theorem POST_runs (p : part) (env : process_env) (msgs : list (CoreMessage num))
    (w : world num) :
  route_run p env msgs w (run w (POST_of p env msgs)).
Proof.
  destruct (unset_cases (MODEL env)) as [Hm | (m & Hm & Hm0 & Hm1)].
  { replace (run w (POST_of p env msgs)) with (@nil (event num), @Rejected HttpResponse MODEL_error).
    - now constructor.
    - destruct p; unfold POST_of, Part000.POST, Part001.POST;
        rewrite (require_unset _ _ Hm); reflexivity. }
  destruct (snoc_cases msgs) as [-> | (prior & last & ->)].
  { replace (run w (POST_of p env [])) with
      (EvLog [JStr "No messages available, skipping retrieveData."] :: fst (generate w m []),
       snd (generate w m [])).
    - now apply run_empty.
    - destruct p; unfold POST_of, Part000.POST, Part001.POST; rewrite Hm; unfold require;
        rewrite Hm1; cbn [bind run length Nat.ltb Nat.leb andb emit fst snd app generate];
        unfold generation_args, Part001.system_instruction, Part000.system_instruction;
        destruct (generation w _); reflexivity. }
  assert (Hstart :
    run w (POST_of p env (prior ++ [last])%list)
    = run w (await context := Part000.retrieveData env (js_String (content last)) prior in
             ConsoleLog [JStr "sending messages to the LLM";
                         JArr (List.map message_json (forwarded p (prior ++ [last])%list context))]
               (StreamText (generation_args m (forwarded p (prior ++ [last])%list context))
                  (fun result => Ret (toDataStreamResponse result))))).
  { destruct p; unfold POST_of, Part000.POST, Part001.POST; rewrite Hm;
      unfold require at 1; rewrite Hm1; cbn [bind];
      rewrite nonempty_snoc, lookup_last_snoc, take_last_snoc; reflexivity. }
  rewrite Hstart. clear Hstart.
  unfold Part000.retrieveData.
  destruct (unset_cases (VECTORIZE_TOKEN env)) as [Ht | (token & Ht & Ht0 & Ht1)].
  { rewrite (require_unset _ _ Ht). cbn [bind run]. eapply run_no_token; eauto. }
  destruct (unset_cases (VECTORIZE_RETRIEVAL_URL env)) as [Hu | (url & Hu & Hu0 & Hu1)].
  { rewrite Ht. unfold require at 1. rewrite Ht1. cbn [bind].
    rewrite (require_unset _ _ Hu). cbn [bind run].
    eapply run_no_url; eauto. rewrite Ht. now apply unset_Some. }
  destruct (unset_cases (GROQ_API_KEY env)) as [Hk | (key & Hk & Hk0 & Hk1)].
  { rewrite Ht, Hu. unfold require at 1. rewrite Ht1. cbn [bind].
    unfold require at 1. rewrite Hu1. cbn [bind].
    rewrite (require_unset _ _ Hk). cbn [bind run].
    eapply run_no_key; eauto; [rewrite Ht|rewrite Hu]; now apply unset_Some. }
  assert (Hkey : unset (GROQ_API_KEY env) = false) by (rewrite Hk; now apply unset_Some).
  rewrite Ht, Hu, Hk. unfold require. rewrite Ht1, Hu1, Hk1. cbn [bind].
  rewrite retrieveData_payload. fold (retrieval_request token prior last).
  cbn [run].
  destruct (retrieval w url (retrieval_request token prior last)) as [r|e] eqn:Hf.
  2:{ eapply run_fetch_rejected; eauto. }
  destruct (ok r) eqn:Hok; cbn [negb bind run emit fst snd app].
  2:{ eapply run_not_ok; eauto. }
  destruct (json_body r) as [d|e] eqn:Hj; cbn [bind run emit fst snd app].
  2:{ eapply run_json_rejected; eauto. }
  match goal with |- route_run _ _ _ _ ?o => replace o with
    (EvFetchCall url (retrieval_request token prior last) :: EvFetchSettled (Fulfilled r)
       :: EvJsonSettled (Fulfilled d) :: fst (generate w m (forwarded p (prior ++ [last])%list d)),
     snd (generate w m (forwarded p (prior ++ [last])%list d))) end.
  - eapply run_generated; eauto.
  - unfold generate. cbn [fst snd].
    destruct (generation w _); reflexivity.
Qed.

End RunAnalysis.

(** ** The claims *)

Section Claims.
Context {num : Type} `{JsNumber num}.

Lemma config_error_some (env : process_env) :
  any_unset env = true -> exists e, config_error env = Some e.
Proof.
  unfold any_unset, config_error.
  destruct (unset (MODEL env)), (unset (VECTORIZE_TOKEN env)),
    (unset (VECTORIZE_RETRIEVAL_URL env)), (unset (GROQ_API_KEY env)); simpl;
    eauto; discriminate.
Qed.

Lemma set_not_unset (v : option string) (s : string) :
  v = Some s -> s <> EmptyString -> unset v = false.
Proof. intros -> Hs. now apply unset_Some. Qed.

End Claims.

(** Turns what a case of [route_run] says about the environment into the
    values of [unset]. *)
Ltac env_facts :=
  repeat match goal with
  | Hv : ?v = Some ?s, Hs : ?s <> EmptyString |- _ =>
      lazymatch goal with
      | _ : unset v = false |- _ => fail
      | _ => pose proof (set_not_unset v s Hv Hs)
      end
  end.

(** Case analysis on the run of the handler: one goal per way a request can
    go, with the trace and the outcome made explicit. *)
Ltac run_cases p env msgs w :=
  let o := fresh "o" in
  let Ho := fresh "Ho" in
  let R := fresh "R" in
  pose proof (POST_runs p env msgs w) as R;
  remember (run w (POST_of p env msgs)) as o eqn:Ho;
  destruct R; subst; env_facts;
  repeat match goal with
         | E : [] = (_ ++ [_])%list |- _ => exfalso; exact (app_cons_not_nil _ _ _ E)
         | E : (_ ++ [_])%list = [] |- _ =>
             exfalso; symmetry in E; exact (app_cons_not_nil _ _ _ E)
         | E : (_ ++ [_])%list = (_ ++ [_])%list |- _ =>
             apply app_inj_tail in E; destruct E; subst
         end.

Section ClaimsConfig.
Context {num : Type} `{JsNumber num}.

(** C1 (amended).  When a required configuration value is missing, a
    request fails with the descriptive error of the first missing value and
    no event at all is observed, hence no retrieval fetch and no generation
    call, provided the check is reached: always for the model identifier,
    and on a non-empty Conversation for the retrieval credential, the
    retrieval URL and the generation key (they are read by [retrieveData]). *)
Theorem C1_missing_configuration (p : part) (env : process_env)
    (msgs : list (CoreMessage num)) (w : world num) :
  any_unset env = true ->
  unset (MODEL env) = true \/ msgs <> [] ->
  exists e, config_error env = Some e /\
            In e [MODEL_error; TOKEN_error; URL_error; KEY_error] /\
            run w (POST_of p env msgs) = ([], Rejected e).
Proof.
  intros Hany Hreach.
  run_cases p env msgs w; unfold any_unset, config_error in *;
    repeat match goal with
           | E : unset _ = _ |- _ => rewrite E in *; clear E
           end;
    simpl in Hany; try discriminate.
  - exists MODEL_error. repeat split; simpl; auto 6.
  - destruct Hreach as [E | E]; [discriminate | congruence].
  - exists TOKEN_error. repeat split; simpl; auto 6.
  - exists URL_error. repeat split; simpl; auto 6.
  - exists KEY_error. repeat split; simpl; auto 6.
Qed.

End ClaimsConfig.

(** C1 as the specification words it fails: with the retrieval credential
    absent and an empty Conversation, nothing is thrown and the generation
    call is made. *)
Lemma C1_counterexample :
  any_unset env_no_token = true /\
  generation_calls (fst (run (world_returning JNull) (Part000.POST env_no_token [])))
  = [generation_args "llama-3.3-70b-versatile" []] /\
  snd (run (world_returning JNull) (Part000.POST env_no_token []))
  = Fulfilled (toDataStreamResponse answer).
Proof. vm_compute. repeat split. Qed.

Lemma C1_missing_configuration_witness :
  exists e, config_error env_no_token = Some e /\
            In e [MODEL_error; TOKEN_error; URL_error; KEY_error] /\
            run (world_returning JNull) (POST_of P000 env_no_token [user_turn "What is Hypertension?"])
            = ([], Rejected e).
Proof.
  apply (C1_missing_configuration P000 env_no_token [user_turn "What is Hypertension?"]
           (world_returning JNull)).
  - reflexivity.
  - right. discriminate.
Defined.

(** Splits a membership in an explicit trace into its cases and keeps the
    ones that are possible. *)
Ltac in_trace H :=
  unfold generate in H; cbn [fst snd In] in H;
  repeat match type of H with
         | _ \/ _ => destruct H as [H | H]
         end;
  try discriminate H; try contradiction H.

Ltac unfold_trace :=
  unfold trace_of, outcome_of in *.

Section ClaimsRetrieval.
Context {num : Type} `{JsNumber num}.

(** C5.  When the retrieval service answers with a non-success status,
    the request is rejected with an error made from the status text of that
    answer, retrieval was called exactly once (no retry), and generation is
    not called. *)
Theorem C5_retrieval_failure (p : part) (env : process_env)
    (msgs : list (CoreMessage num)) (w : world num) (r : Response num) :
  In (EvFetchSettled (Fulfilled r)) (trace_of p env msgs w) ->
  ok r = false ->
  outcome_of p env msgs w = Rejected ("Failed to fetch data: " +:+ statusText r) /\
  length (fetch_calls (trace_of p env msgs w)) = 1 /\
  generation_calls (trace_of p env msgs w) = [].
Proof.
  unfold_trace. intros Hin Hok.
  run_cases p env msgs w; in_trace Hin;
    injection Hin as <-; try congruence.
  repeat split.
Qed.

(** C6.  On a Conversation with zero Turns the retrieval service is never
    called, whatever is handed to generation is the empty Conversation, and
    with the model identifier configured generation is called exactly once,
    with the empty Conversation. *)
Theorem C6_empty_conversation (p : part) (env : process_env) (w : world num) :
  fetch_calls (trace_of p env [] w) = [] /\
  (forall args, In args (generation_calls (trace_of p env [] w)) -> messages args = []) /\
  (forall m, MODEL env = Some m -> m <> EmptyString ->
     generation_calls (trace_of p env [] w) = [generation_args m []]).
Proof.
  unfold_trace.
  run_cases p env (@nil (CoreMessage num)) w.
  - repeat split; [intros args []|].
    intros m Hm Hm0. rewrite Hm in *. simpl in *. apply String.eqb_neq in Hm0. congruence.
  - repeat split.
    + intros args [<- | []]. reflexivity.
    + intros m' Hm' _. cbn. congruence.
Qed.

(** C7.  Every retrieval call goes to the configured URL by POST, carries
    the credential as its Authorization header, and its body is the JSON
    text of an object whose [question] is the last Turn's content as a
    string, whose [numResults] is 5, whose [rerank] is true, and which has a
    [context] holding the prior Turns exactly when there is a prior Turn. *)
Theorem C7_retrieval_request (p : part) (env : process_env)
    (msgs : list (CoreMessage num)) (w : world num) (url : string) (init : RequestInit) :
  In (EvFetchCall url init) (trace_of p env msgs w) ->
  exists prior last token payload,
    msgs = (prior ++ [last])%list /\
    VECTORIZE_RETRIEVAL_URL env = Some url /\
    VECTORIZE_TOKEN env = Some token /\
    method init = "POST" /\
    property "Authorization" (headers init) = Some token /\
    body init = JSON_stringify (JObj payload) /\
    map fst payload = (["question"; "numResults"; "rerank"]
                       ++ if Nat.eqb (length prior) 0 then [] else ["context"])%list /\
    property "question" payload = Some (JStr (js_String (content last))) /\
    property "numResults" payload = Some (JNum (num_of_Z 5)) /\
    property "rerank" payload = Some (JBool true) /\
    property "context" payload
    = if Nat.eqb (length prior) 0 then None
      else Some (JObj [("messages", JArr (List.map message_json prior))]).
Proof.
  unfold_trace. intros Hin.
  run_cases p env msgs w; in_trace Hin;
    injection Hin as <- <-;
    match goal with
    | Ht : VECTORIZE_TOKEN env = Some ?t |- context [(?pr ++ [?la])%list] =>
        exists pr, la, t, (retrieval_payload pr la);
        (repeat split; try assumption; try reflexivity; destruct pr; reflexivity)
    end.
Qed.

End ClaimsRetrieval.

Lemma C5_retrieval_failure_witness :
  outcome_of P000 env_complete [user_turn "What is Hypertension?"] world_failing
  = Rejected "Failed to fetch data: Internal Server Error" /\
  length (fetch_calls (trace_of P000 env_complete [user_turn "What is Hypertension?"] world_failing)) = 1 /\
  generation_calls (trace_of P000 env_complete [user_turn "What is Hypertension?"] world_failing) = [].
Proof.
  apply (C5_retrieval_failure P000 env_complete [user_turn "What is Hypertension?"] world_failing
           {| ok := false; statusText := "Internal Server Error";
              json_body := Rejected "Unexpected end of JSON input" |}).
  - vm_compute. right. left. reflexivity.
  - reflexivity.
Defined.

Lemma C6_empty_conversation_witness :
  generation_calls (trace_of P001 env_no_token [] (world_returning JNull))
  = [generation_args "llama-3.3-70b-versatile" []].
Proof.
  apply (C6_empty_conversation P001 env_no_token (world_returning JNull)).
  - reflexivity.
  - discriminate.
Defined.

Section ClaimsRewrite.
Context {num : Type} `{JsNumber num}.

Lemma rewrite_last_of_eq (p : part) (d : json num) (m : CoreMessage num) :
  rewrite_last_of p d m
  = {| role := role m;
       content := JStr (prompt_of p (js_String (content m)) (JSON_stringify d)) |}.
Proof. destruct p; reflexivity. Qed.

(** What reaches generation once retrieval handed back [d]. *)
Lemma generation_after_retrieval (p : part) (env : process_env)
    (msgs : list (CoreMessage num)) (w : world num) (d : json num) :
  retrieved (trace_of p env msgs w) d ->
  exists m, MODEL env = Some m /\ m <> EmptyString /\
    generation_calls (trace_of p env msgs w) = [generation_args m (forwarded p msgs d)].
Proof.
  unfold retrieved. unfold_trace. intros Hin.
  run_cases p env msgs w; in_trace Hin.
  injection Hin as <-. eexists; repeat split; eassumption.
Qed.

(** C2.  When the last Turn has non-empty content and retrieval returns a
    non-empty list of chunks, generation is called once and the content of
    the last Turn it receives holds the question verbatim (the content as a
    string, which is the content itself when it is text) and the JSON text of
    every chunk; this holds for both versions of the handler. *)
Theorem C2_question_and_chunks (p : part) (env : process_env)
    (prior : list (CoreMessage num)) (lastTurn : CoreMessage num) (w : world num)
    (chunks : list (json num)) :
  js_String (content lastTurn) <> EmptyString ->
  chunks <> [] ->
  retrieved (trace_of p env (prior ++ [lastTurn])%list w) (JArr chunks) ->
  exists args forwardedLast text,
    generation_calls (trace_of p env (prior ++ [lastTurn])%list w) = [args] /\
    last (messages args) = Some forwardedLast /\
    content forwardedLast = JStr text /\
    occurs_in (js_String (content lastTurn)) text /\
    (forall question, content lastTurn = JStr question -> occurs_in question text) /\
    (forall c, In c chunks -> occurs_in (JSON_stringify c) text).
Proof.
  intros _ _ Hret.
  destruct (generation_after_retrieval _ _ _ _ _ Hret) as (m & _ & _ & ->).
  rewrite forwarded_snoc. cbn [truthy]. rewrite rewrite_last_of_eq.
  eexists _, _, _. split; [reflexivity|]. unfold generation_args. cbn [messages].
  split; [apply last_snoc|].
  cbn [content]. split; [reflexivity|]. split; [|split].
  - apply question_in_prompt.
  - intros question ->. apply question_in_prompt.
  - intros c Hc. eapply occurs_in_trans; [|apply chunks_in_prompt].
    now apply item_in_stringify.
Qed.

(** C3 (amended).  On a non-empty Conversation, when retrieval hands back a
    falsy value (null, false, zero or the empty string), generation is
    called once with the Conversation exactly as it came in. *)
Theorem C3_falsy_context (p : part) (env : process_env)
    (msgs : list (CoreMessage num)) (w : world num) (d : json num) :
  msgs <> [] ->
  retrieved (trace_of p env msgs w) d ->
  truthy d = false ->
  exists args,
    generation_calls (trace_of p env msgs w) = [args] /\
    messages args = msgs.
Proof.
  intros _ Hret Hd.
  destruct (generation_after_retrieval _ _ _ _ _ Hret) as (m & _ & _ & ->).
  eexists. split; [reflexivity|]. unfold forwarded. now rewrite Hd.
Qed.

(** C9.  When the rewrite occurs (retrieval handed back a truthy value),
    generation receives the prior Turns as they came in, followed by one
    Turn with the role of the original last Turn: only the content of the
    last Turn is new. *)
Theorem C9_rewrite_frame (p : part) (env : process_env)
    (prior : list (CoreMessage num)) (lastTurn : CoreMessage num) (w : world num)
    (d : json num) :
  retrieved (trace_of p env (prior ++ [lastTurn])%list w) d ->
  truthy d = true ->
  exists args text,
    generation_calls (trace_of p env (prior ++ [lastTurn])%list w) = [args] /\
    messages args = (prior ++ [{| role := role lastTurn; content := JStr text |}])%list /\
    length (messages args) = length (prior ++ [lastTurn])%list /\
    take (length prior) (messages args) = prior /\
    (forall i turn, prior !! i = Some turn -> messages args !! i = Some turn).
Proof.
  intros Hret Hd.
  destruct (generation_after_retrieval _ _ _ _ _ Hret) as (m & _ & _ & ->).
  rewrite forwarded_snoc, Hd, rewrite_last_of_eq.
  eexists _, _. split; [reflexivity|]. unfold generation_args. cbn [messages].
  split; [reflexivity|]. split; [rewrite !length_app; reflexivity|].
  split; [apply take_app_length|].
  intros i turn Hi. now apply lookup_app_l_Some.
Qed.

End ClaimsRewrite.

Section ClaimsOrder.
Context {num : Type} `{JsNumber num}.

Lemma generation_calls_app (l1 l2 : list (event num)) :
  generation_calls (l1 ++ l2)%list = (generation_calls l1 ++ generation_calls l2)%list.
Proof. apply omap_app. Qed.

Lemma generation_calls_split (pre post : list (event num)) (args : StreamTextArgs num) :
  generation_calls (pre ++ EvStreamTextCall args :: post)%list <> [].
Proof.
  rewrite generation_calls_app. cbn.
  destruct (generation_calls pre); discriminate.
Qed.

(** A trace with a single generation call splits around it in one way. *)
Lemma split_at_generation (l1 l2 pre post : list (event num))
    (x args : StreamTextArgs num) :
  generation_calls l1 = [] ->
  generation_calls l2 = [] ->
  (l1 ++ EvStreamTextCall x :: l2)%list = (pre ++ EvStreamTextCall args :: post)%list ->
  pre = l1 /\ args = x /\ post = l2.
Proof.
  revert pre. induction l1 as [|a l1 IH]; intros pre H1 H2 E.
  - destruct pre as [|e pre]; cbn in E.
    + injection E as <- <-. auto.
    + injection E as <- ->. exfalso. revert H2. apply generation_calls_split.
  - destruct pre as [|e pre]; cbn in E.
    + injection E as -> _. discriminate H1.
    + injection E as <- E.
      assert (H1' : generation_calls l1 = []).
      { destruct a; cbn in H1; try discriminate; exact H1. }
      destruct (IH pre H1' H2 E) as (-> & -> & ->). auto.
Qed.

(** C8.  On a non-empty Conversation, a generation call is only ever
    observed after the retrieval call, its fulfilled answer and its parsed
    body, in this order at the head of the trace; no retrieval event
    follows, and the Conversation handed to generation is [forwarded]
    applied to the body retrieval returned. *)
Theorem C8_retrieval_before_generation (p : part) (env : process_env)
    (msgs : list (CoreMessage num)) (w : world num)
    (pre post : list (event num)) (args : StreamTextArgs num) :
  msgs <> [] ->
  trace_of p env msgs w = (pre ++ EvStreamTextCall args :: post)%list ->
  exists url init r d logs,
    pre = (EvFetchCall url init :: EvFetchSettled (Fulfilled r)
             :: EvJsonSettled (Fulfilled d) :: logs)%list /\
    retrieval w url init = Fulfilled r /\
    ok r = true /\
    json_body r = Fulfilled d /\
    forallb (fun e => negb (is_fetch_event e)) (logs ++ post)%list = true /\
    messages args = forwarded p msgs d.
Proof.
  unfold_trace. intros Hne E.
  run_cases p env msgs w; cbn [fst] in E;
    try (exfalso; apply (f_equal generation_calls) in E;
         revert E; cbn; apply not_eq_sym, generation_calls_split).
  - congruence.
  - unfold generate in E. cbn [fst] in E.
    match type of E with
    | (?a :: ?b :: ?c :: ?l :: EvStreamTextCall ?x :: ?rest)%list = _ =>
        change (([a; b; c; l] ++ EvStreamTextCall x :: rest)%list
                = (pre ++ EvStreamTextCall args :: post)%list) in E
    end.
    apply split_at_generation in E as (-> & -> & ->); try reflexivity.
    eexists _, _, _, _, _. repeat split; try eassumption; reflexivity.
Qed.

End ClaimsOrder.

Section ClaimsVersions.
Context {num : Type} `{JsNumber num}.

(** The template is its fixed text around the two holes. *)
Lemma prompt_of_parts (p : part) (question chunks : string) :
  prompt_of p question chunks
  = before_question_of p +:+ question +:+ before_chunks_of p +:+ chunks +:+ after_chunks_of p.
Proof. destruct p; vm_compute; reflexivity. Qed.

(** C4 (amended).  When the rewrite occurs, the new content of the last
    Turn is the fixed text of the template around two holes, the first
    filled with the original question as a string and the second with the
    JSON text of the retrieval result exactly as it was returned.  The fixed
    text of part_000 states the citation rule (a markdown link, with
    [3](https://example.com/page) as its example); the fixed text of
    part_001 has no markdown link in it. *)
Theorem C4_prompt_parts (p : part) (env : process_env)
    (prior : list (CoreMessage num)) (lastTurn : CoreMessage num) (w : world num)
    (d : json num) :
  retrieved (trace_of p env (prior ++ [lastTurn])%list w) d ->
  truthy d = true ->
  exists args forwardedLast,
    generation_calls (trace_of p env (prior ++ [lastTurn])%list w) = [args] /\
    last (messages args) = Some forwardedLast /\
    content forwardedLast
    = JStr (before_question_of p +:+ js_String (content lastTurn)
            +:+ before_chunks_of p +:+ JSON_stringify d +:+ after_chunks_of p) /\
    occurs_in "[Chunk source](URL)" (fixed_text_of P000) /\
    occurs_in "[3](https://example.com/page)" (fixed_text_of P000) /\
    ~ occurs_in "](" (fixed_text_of P001).
Proof.
  intros Hret Hd.
  destruct (generation_after_retrieval _ _ _ _ _ Hret) as (m & _ & _ & ->).
  rewrite forwarded_snoc, Hd, rewrite_last_of_eq, prompt_of_parts.
  eexists _, _. split; [reflexivity|]. unfold generation_args. cbn [messages].
  split; [apply last_snoc|]. split; [reflexivity|].
  split; [|split].
  - apply includes_occurs. vm_compute. reflexivity.
  - apply includes_occurs. vm_compute. reflexivity.
  - apply not_includes. vm_compute. reflexivity.
Qed.

Lemma prompts_differ (question chunks : string) :
  Part000.prompt question chunks <> Part001.prompt question chunks.
Proof.
  intros E. apply (f_equal (String.get 1)) in E. vm_compute in E. discriminate E.
Qed.

Lemma frame_forwarded (m : string) (prior : list (CoreMessage num))
    (lastTurn : CoreMessage num) (p : part) (d : json num) :
  frame (generation_args m (forwarded p (prior ++ [lastTurn])%list d))
  = (groq m, Part000.system_instruction,
     (List.map role prior ++ [role lastTurn])%list, prior).
Proof.
  rewrite forwarded_snoc, rewrite_last_of_eq. unfold frame, generation_args.
  cbn [model system messages].
  destruct (truthy d); rewrite List.map_app, last_index_snoc, take_app_length; reflexivity.
Qed.

(** C10 (amended).  The two versions of the handler make the same
    retrieval calls and hand to generation the same model, the same system
    instruction, the same roles and the same prior Turns; their whole runs
    are equal whenever retrieval hands back no truthy value (empty
    Conversation, error before generation, falsy result).  The rewritten
    content of the last Turn is never the same, since the two templates
    differ from their first line on. *)
Theorem C10_versions_agree (env : process_env) (msgs : list (CoreMessage num))
    (w : world num) :
  fetch_calls (trace_of P000 env msgs w) = fetch_calls (trace_of P001 env msgs w) /\
  List.map frame (generation_calls (trace_of P000 env msgs w))
  = List.map frame (generation_calls (trace_of P001 env msgs w)) /\
  ((forall d, retrieved (trace_of P000 env msgs w) d -> truthy d = false) ->
   run w (POST_of P000 env msgs) = run w (POST_of P001 env msgs)) /\
  (forall question chunks,
     prompt_of P000 question chunks <> prompt_of P001 question chunks).
Proof.
  unfold retrieved. unfold_trace.
  split; [|split; [|split]]; [| | |exact prompts_differ].
  all: run_cases P000 env msgs w;
    match goal with
    | |- context [run ?w' (POST_of P001 ?env' ?ms)] => run_cases P001 env' ms w'
    end; simplify_eq;
    repeat match goal with
           | H1 : ?x = Fulfilled _, H2 : ?x = Fulfilled _ |- _ =>
               rewrite H1 in H2; injection H2 as <-
           end;
    try congruence; try reflexivity.
  - unfold generate, generation_calls. cbn [fst snd omap list_omap List.map].
    rewrite !frame_forwarded. reflexivity.
  - intros Hfalsy.
    match goal with
    | |- context [forwarded P000 ?ms ?d] =>
        assert (Hd : truthy d = false) by (apply Hfalsy; cbn; auto);
        unfold forwarded; rewrite Hd; reflexivity
    end.
Qed.

End ClaimsVersions.

(** ** The claims on concrete requests *)

(** Scenario of the specification: one user Turn, two chunks returned. *)
Example scenario_two_chunks :
  exists text,
    List.map messages
      (generation_calls (trace_of P000 env_complete [user_turn question1] (world_returning two_chunks)))
    = [[{| role := "user"; content := JStr text |}]] /\
    includes question1 text = true /\
    includes "https://a.example" text = true /\
    includes "https://b.example" text = true.
Proof. eexists. vm_compute. repeat split. Qed.

(** Scenario of the specification: the retrieval service answers 500. *)
Example scenario_retrieval_500 :
  run world_failing (Part000.POST env_complete [user_turn question1])
  = ([EvFetchCall "https://retrieval.example/pipeline"
        (retrieval_request "secret-token" [] (user_turn question1));
      EvFetchSettled (retrieval world_failing "https://retrieval.example/pipeline"
                        (retrieval_request "secret-token" [] (user_turn question1)))],
     Rejected "Failed to fetch data: Internal Server Error").
Proof. vm_compute. reflexivity. Qed.

Lemma C2_question_and_chunks_witness :
  exists args forwardedLast text,
    generation_calls (trace_of P001 env_complete
                        ([assistant_turn "Hello"] ++ [user_turn question1])%list
                        (world_returning two_chunks)) = [args] /\
    last (messages args) = Some forwardedLast /\
    content forwardedLast = JStr text /\
    occurs_in (js_String (content (user_turn question1))) text /\
    (forall question, content (user_turn question1) = JStr question -> occurs_in question text) /\
    (forall c, In c [JObj [("source", JNum 1%Z); ("link", JStr "https://a.example"); ("text", JStr "salt")];
                     JObj [("source", JNum 2%Z); ("link", JStr "https://b.example"); ("text", JStr "exercise")]]
               -> occurs_in (JSON_stringify c) text).
Proof.
  apply (C2_question_and_chunks P001 env_complete [assistant_turn "Hello"] (user_turn question1)
           (world_returning two_chunks)).
  - discriminate.
  - discriminate.
  - unfold retrieved. vm_compute. right. right. left. reflexivity.
Defined.

(** C3 as the specification words it fails: an empty list is a truthy value,
    so an empty retrieval result still triggers the rewrite. *)
Lemma C3_counterexample :
  retrieved (trace_of P000 env_complete [user_turn question1] (world_returning (JArr []))) (JArr []) /\
  List.map messages
    (generation_calls (trace_of P000 env_complete [user_turn question1] (world_returning (JArr []))))
  = [[{| role := "user"; content := JStr (Part000.prompt question1 "[]") |}]] /\
  [{| role := "user"; content := JStr (Part000.prompt question1 "[]") |}] <> [user_turn question1].
Proof.
  split; [|split].
  - unfold retrieved. vm_compute. right. right. left. reflexivity.
  - vm_compute. reflexivity.
  - intros E. vm_compute in E. discriminate E.
Qed.

Lemma C3_falsy_context_witness :
  exists args,
    generation_calls (trace_of P000 env_complete [user_turn question1] (world_returning JNull)) = [args] /\
    messages args = [user_turn question1].
Proof.
  apply (C3_falsy_context P000 env_complete [user_turn question1] (world_returning JNull) JNull).
  - discriminate.
  - unfold retrieved. vm_compute. right. right. left. reflexivity.
  - reflexivity.
Defined.

(** C4 as the specification words it fails: in part_001 the rewritten
    content has no markdown link, hence no citation rule, and a chunk that
    came back without index and URL is passed on without them (neither the
    index 1 nor any URL occurs in the content). *)
Lemma C4_counterexample :
  exists text,
    List.map messages
      (generation_calls (trace_of P001 env_complete [user_turn question1] (world_returning untagged_chunks)))
    = [[{| role := "user"; content := JStr text |}]] /\
    includes "](" text = false /\
    includes "1" text = false /\
    includes "http" text = false.
Proof. eexists. vm_compute. repeat split. Qed.

Lemma C4_prompt_parts_witness :
  exists args forwardedLast,
    generation_calls (trace_of P000 env_complete ([] ++ [user_turn question1])%list
                        (world_returning two_chunks)) = [args] /\
    last (messages args) = Some forwardedLast /\
    content forwardedLast
    = JStr (before_question_of P000 +:+ js_String (content (user_turn question1))
            +:+ before_chunks_of P000 +:+ JSON_stringify two_chunks +:+ after_chunks_of P000) /\
    occurs_in "[Chunk source](URL)" (fixed_text_of P000) /\
    occurs_in "[3](https://example.com/page)" (fixed_text_of P000) /\
    ~ occurs_in "](" (fixed_text_of P001).
Proof.
  apply (C4_prompt_parts P000 env_complete [] (user_turn question1) (world_returning two_chunks)
           two_chunks).
  - unfold retrieved. vm_compute. right. right. left. reflexivity.
  - reflexivity.
Defined.

Lemma C7_retrieval_request_witness :
  exists prior last token payload,
    [assistant_turn "Hello"; user_turn question1] = (prior ++ [last])%list /\
    VECTORIZE_RETRIEVAL_URL env_complete = Some "https://retrieval.example/pipeline" /\
    VECTORIZE_TOKEN env_complete = Some token /\
    method (retrieval_request "secret-token" [assistant_turn "Hello"] (user_turn question1)) = "POST" /\
    property "Authorization"
      (headers (retrieval_request "secret-token" [assistant_turn "Hello"] (user_turn question1)))
    = Some token /\
    body (retrieval_request "secret-token" [assistant_turn "Hello"] (user_turn question1))
    = JSON_stringify (JObj payload) /\
    map fst payload = (["question"; "numResults"; "rerank"]
                       ++ if Nat.eqb (length prior) 0 then [] else ["context"])%list /\
    property "question" payload = Some (JStr (js_String (content last))) /\
    property "numResults" payload = Some (JNum (num_of_Z 5)) /\
    property "rerank" payload = Some (JBool true) /\
    property "context" payload
    = if Nat.eqb (length prior) 0 then None
      else Some (JObj [("messages", JArr (List.map message_json prior))]).
Proof.
  apply (C7_retrieval_request P000 env_complete [assistant_turn "Hello"; user_turn question1]
           (world_returning two_chunks)).
  vm_compute. left. reflexivity.
Defined.

Lemma C8_retrieval_before_generation_witness :
  exists url init r d logs,
    take 4 (trace_of P000 env_complete [user_turn question1] (world_returning two_chunks))
    = (EvFetchCall url init :: EvFetchSettled (Fulfilled r)
         :: EvJsonSettled (Fulfilled d) :: logs)%list /\
    retrieval (world_returning two_chunks) url init = Fulfilled r /\
    ok r = true /\
    json_body r = Fulfilled d /\
    forallb (fun e => negb (is_fetch_event e))
      (logs ++ drop 5 (trace_of P000 env_complete [user_turn question1] (world_returning two_chunks)))%list
    = true /\
    messages (generation_args "llama-3.3-70b-versatile"
                (forwarded P000 [user_turn question1] two_chunks))
    = forwarded P000 [user_turn question1] d.
Proof.
  apply (C8_retrieval_before_generation P000 env_complete [user_turn question1]
           (world_returning two_chunks)).
  - discriminate.
  - vm_compute. reflexivity.
Defined.

Lemma C9_rewrite_frame_witness :
  exists args text,
    generation_calls (trace_of P000 env_complete
                        ([user_turn "Hi"; assistant_turn "Hello"] ++ [user_turn question1])%list
                        (world_returning two_chunks)) = [args] /\
    messages args
    = ([user_turn "Hi"; assistant_turn "Hello"]
       ++ [{| role := role (user_turn question1); content := JStr text |}])%list /\
    length (messages args)
    = length ([user_turn "Hi"; assistant_turn "Hello"] ++ [user_turn question1])%list /\
    take (length [user_turn "Hi"; assistant_turn "Hello"]) (messages args)
    = [user_turn "Hi"; assistant_turn "Hello"] /\
    (forall i turn, [user_turn "Hi"; assistant_turn "Hello"] !! i = Some turn ->
                    messages args !! i = Some turn).
Proof.
  apply (C9_rewrite_frame P000 env_complete [user_turn "Hi"; assistant_turn "Hello"]
           (user_turn question1) (world_returning two_chunks) two_chunks).
  - unfold retrieved. vm_compute. right. right. left. reflexivity.
  - reflexivity.
Defined.

(** C10 as stated fails: on the same request and the same retrieval
    result, the two versions hand different Conversations to generation. *)
Lemma C10_counterexample :
  generation_calls (trace_of P000 env_complete [user_turn question1] (world_returning two_chunks))
  <> generation_calls (trace_of P001 env_complete [user_turn question1] (world_returning two_chunks)).
Proof.
  intros E.
  apply (f_equal (List.map (fun a =>
           List.map (fun m => includes "[Chunk source](URL)" (js_String (content m)))
                    (messages a)))) in E.
  vm_compute in E. discriminate E.
Qed.

Lemma C10_versions_agree_witness :
  run (world_returning JNull) (POST_of P000 env_complete [user_turn question1])
  = run (world_returning JNull) (POST_of P001 env_complete [user_turn question1]).
Proof.
  apply (C10_versions_agree env_complete [user_turn question1] (world_returning JNull)).
  intros d Hd. unfold retrieved in Hd. vm_compute in Hd.
  destruct Hd as [Hd | [Hd | [Hd | [Hd | [Hd | [Hd | []]]]]]]; try discriminate Hd.
  injection Hd as <-. reflexivity.
Defined.

(** ** Further properties of the route handler *)

Section RouteProperties.
Context {num : Type} `{JsNumber num}.

(** X1.  No retry anywhere: whatever the environment, the Conversation and
    the collaborators do, one request makes at most one retrieval call and
    at most one generation call. *)
Theorem X1_at_most_one_call_each (p : part) (env : process_env)
    (msgs : list (CoreMessage num)) (w : world num) :
  length (fetch_calls (trace_of p env msgs w)) <= 1 /\
  length (generation_calls (trace_of p env msgs w)) <= 1.
Proof.
  unfold_trace. run_cases p env msgs w; cbn; lia.
Qed.

(** X2.  When [fetch] itself rejects (the retrieval service cannot be
    reached), the request is rejected with the same reason, the body is never
    read and generation is not called. *)
Theorem X2_fetch_rejection (p : part) (env : process_env)
    (msgs : list (CoreMessage num)) (w : world num) (reason : string) :
  In (EvFetchSettled (Rejected reason)) (trace_of p env msgs w) ->
  outcome_of p env msgs w = Rejected reason /\
  (forall body, ~ In (EvJsonSettled body) (trace_of p env msgs w)) /\
  generation_calls (trace_of p env msgs w) = [].
Proof.
  unfold_trace. intros Hin.
  run_cases p env msgs w; in_trace Hin.
  injection Hin as <-. repeat split.
  intros body Hb. in_trace Hb.
Qed.

(** X3.  When the retrieval service answers with a success status but
    [response.json()] rejects (the body is not JSON), the request is rejected
    with the reason of the parse failure and generation is not called. *)
Theorem X3_body_rejection (p : part) (env : process_env)
    (msgs : list (CoreMessage num)) (w : world num) (reason : string) :
  In (EvJsonSettled (Rejected reason)) (trace_of p env msgs w) ->
  outcome_of p env msgs w = Rejected reason /\
  length (fetch_calls (trace_of p env msgs w)) = 1 /\
  generation_calls (trace_of p env msgs w) = [].
Proof.
  unfold_trace. intros Hin.
  run_cases p env msgs w; in_trace Hin.
  injection Hin as <-. repeat split.
Qed.

(** X4.  Once generation has been called, the request ends the way the
    generation call ends: it is fulfilled with the data-stream response of the
    streamed result, or rejected with the reason generation gave. *)
Theorem X4_outcome_follows_generation (p : part) (env : process_env)
    (msgs : list (CoreMessage num)) (w : world num) (args : StreamTextArgs num) :
  In (EvStreamTextCall args) (trace_of p env msgs w) ->
  outcome_of p env msgs w
  = match generation w args with
    | Fulfilled result => Fulfilled (toDataStreamResponse result)
    | Rejected reason => Rejected reason
    end.
Proof.
  unfold_trace. intros Hin.
  run_cases p env msgs w; in_trace Hin; injection Hin as <-; reflexivity.
Qed.

(** X5.  A request is only ever answered through generation: when the
    handler returns a response, generation was called and fulfilled, and the
    response is the data-stream response of its result. *)
Theorem X5_response_only_from_generation (p : part) (env : process_env)
    (msgs : list (CoreMessage num)) (w : world num) (response : HttpResponse) :
  outcome_of p env msgs w = Fulfilled response ->
  exists args result,
    generation_calls (trace_of p env msgs w) = [args] /\
    generation w args = Fulfilled result /\
    response = toDataStreamResponse result.
Proof.
  unfold_trace. intros Hout.
  run_cases p env msgs w; cbn [snd] in Hout; try discriminate Hout;
    unfold generate in *; cbn [fst snd] in *;
    match type of Hout with
    | context [generation w ?a] =>
        destruct (generation w a) as [result|reason] eqn:Hg; [|discriminate Hout];
        injection Hout as <-; exists a, result; repeat split; exact Hg
    end.
Qed.

(** X6.  Every generation call names the language model configured in
    [MODEL] and carries the fixed system instruction, in both versions of the
    handler. *)
Theorem X6_generation_model_and_system (p : part) (env : process_env)
    (msgs : list (CoreMessage num)) (w : world num) (args : StreamTextArgs num) :
  In args (generation_calls (trace_of p env msgs w)) ->
  exists m, MODEL env = Some m /\ m <> EmptyString /\
            model args = groq m /\
            system args = Part000.system_instruction /\
            system args = Part001.system_instruction.
Proof.
  unfold_trace. intros Hin.
  run_cases p env msgs w; unfold generate in Hin; cbn in Hin;
    try contradiction Hin;
    destruct Hin as [<- | []]; eexists; repeat split; eassumption.
Qed.

(** X7.  The handler never adds, drops or reorders Turns and never changes
    a role: whatever retrieval returned, the Conversation handed to
    generation has the length and the roles of the incoming one, and all its
    Turns but the last are the incoming ones. *)
Theorem X7_conversation_shape (p : part) (env : process_env)
    (msgs : list (CoreMessage num)) (w : world num) (args : StreamTextArgs num) :
  In args (generation_calls (trace_of p env msgs w)) ->
  length (messages args) = length msgs /\
  List.map role (messages args) = List.map role msgs /\
  take (length msgs - 1) (messages args) = take (length msgs - 1) msgs.
Proof.
  unfold_trace. intros Hin.
  run_cases p env msgs w; unfold generate in Hin; cbn in Hin;
    try contradiction Hin;
    destruct Hin as [<- | []]; cbn [messages generation_args].
  - repeat split.
  - rewrite forwarded_snoc, rewrite_last_of_eq.
    destruct (truthy d); repeat split;
      rewrite ?length_app, ?List.map_app, ?last_index_snoc, ?take_app_length; try reflexivity.
    replace (length prior + length [final] - 1) with (length prior) by (cbn; lia).
    rewrite !take_app_length. reflexivity.
Qed.

(** X8.  With the four configuration values present and a non-empty
    Conversation the retrieval service is always called, exactly once, at the
    configured URL with the request built from the Conversation. *)
Theorem X8_retrieval_is_called (p : part) (env : process_env)
    (prior : list (CoreMessage num)) (lastTurn : CoreMessage num) (w : world num) :
  any_unset env = false ->
  exists token url,
    VECTORIZE_TOKEN env = Some token /\
    VECTORIZE_RETRIEVAL_URL env = Some url /\
    fetch_calls (trace_of p env (prior ++ [lastTurn])%list w)
    = [(url, retrieval_request token prior lastTurn)].
Proof.
  unfold_trace. unfold any_unset. intros Hall.
  run_cases p env (prior ++ [lastTurn])%list w;
    repeat match goal with
           | E : unset _ = _ |- _ => rewrite E in Hall
           end;
    cbn in Hall; try discriminate Hall; try (rewrite ?orb_true_r in Hall; discriminate Hall);
    eexists _, _; repeat split; eassumption.
Qed.

End RouteProperties.

Section RouteIndependence.
Context {num : Type} `{JsNumber num}.


(** X10.  On an empty Conversation the handler reads nothing but [MODEL]:
    two environments with the same model give the same run, whatever their
    retrieval credential, retrieval URL and generation key are. *)
Theorem X10_empty_conversation_reads_only_model (p : part) (env1 env2 : process_env)
    (w : world num) :
  MODEL env1 = MODEL env2 ->
  run w (POST_of p env1 []) = run w (POST_of p env2 []).
Proof.
  intros HM.
  run_cases p env1 (@nil (CoreMessage num)) w;
    run_cases p env2 (@nil (CoreMessage num)) w;
    rewrite ?HM in *; simplify_eq; try congruence; reflexivity.
Qed.

(** X11.  What is sent to the language model is what was logged just
    before: the generation call is immediately preceded by the log entry
    holding the whole forwarded Conversation, rewritten prompt included. *)
Theorem X11_logged_is_sent (p : part) (env : process_env)
    (msgs : list (CoreMessage num)) (w : world num) (args : StreamTextArgs num) :
  In (EvStreamTextCall args) (trace_of p env msgs w) ->
  exists pre post,
    trace_of p env msgs w
    = (pre ++ EvLog [JStr "sending messages to the LLM";
                     JArr (List.map message_json (messages args))]
           :: EvStreamTextCall args :: post)%list.
Proof.
  unfold_trace. intros Hin.
  run_cases p env msgs w; in_trace Hin; injection Hin as <-;
    unfold generate; cbn [fst].
  - eexists [_], _. reflexivity.
  - eexists [_; _; _], _. reflexivity.
Qed.

Lemma string_length_append (a b : string) :
  String.length (a +:+ b) = String.length a + String.length b.
Proof.
  induction a as [|c a IH]; [reflexivity|].
  rewrite append_cons. cbn [String.length]. now rewrite IH.
Qed.

Lemma prompt_is_longer (p : part) (question chunks : string) :
  String.length question < String.length (prompt_of p question chunks).
Proof.
  rewrite prompt_of_parts, !string_length_append.
  assert (0 < String.length (before_question_of p)) by (destruct p; vm_compute; lia).
  lia.
Qed.

Lemma rewrite_changes_content (p : part) (d : json num) (m : CoreMessage num) :
  rewrite_last_of p d m <> m.
Proof.
  rewrite rewrite_last_of_eq. destruct m as [r c]. cbn [role content].
  intros E. injection E as E. destruct c; try discriminate E.
  injection E as E. cbn [js_String] in E.
  pose proof (prompt_is_longer p s (JSON_stringify d)) as L.
  rewrite E in L. lia.
Qed.

(** X12.  After retrieval returned a value, the Conversation reaches
    generation unmodified exactly when that value is falsy: a truthy value
    always changes the content of the last Turn (the rewritten prompt is
    strictly longer than the question it embeds). *)
Theorem X12_unmodified_iff_falsy (p : part) (env : process_env)
    (msgs : list (CoreMessage num)) (w : world num) (d : json num)
    (args : StreamTextArgs num) :
  retrieved (trace_of p env msgs w) d ->
  In args (generation_calls (trace_of p env msgs w)) ->
  (messages args = msgs <-> truthy d = false).
Proof.
  unfold retrieved. unfold_trace. intros Hret Hin.
  run_cases p env msgs w; in_trace Hret. injection Hret as <-.
  unfold generate in Hin. cbn in Hin. destruct Hin as [<- | []].
  cbn [messages generation_args]. rewrite forwarded_snoc.
  destruct (truthy d0); split; try reflexivity; try discriminate.
  intros E. apply app_inv_head in E. injection E as E.
  exfalso. exact (rewrite_changes_content _ _ _ E).
Qed.

End RouteIndependence.

(** ** Properties of the chat client *)

Section PageText.

Lemma replace_all_app (c : ascii) (r a b : string) :
  Page.replace_all c r (a +:+ b) = Page.replace_all c r a +:+ Page.replace_all c r b.
Proof.
  induction a as [|x a IH]; [reflexivity|].
  rewrite append_cons. cbn [Page.replace_all]. now rewrite IH, append_assoc.
Qed.

Lemma escaped_head (x : ascii) :
  Page.escaped (String x EmptyString) = html_entity x.
Proof.
  destruct x as [[] [] [] [] [] [] [] []]; vm_compute; reflexivity.
Qed.

Lemma escaped_app (a b : string) :
  Page.escaped (a +:+ b) = Page.escaped a +:+ Page.escaped b.
Proof. unfold Page.escaped. now rewrite !replace_all_app. Qed.

Lemma escaped_cons (x : ascii) (s : string) :
  Page.escaped (String x s) = html_entity x +:+ Page.escaped s.
Proof.
  change (String x s) with (String x EmptyString +:+ s).
  now rewrite escaped_app, escaped_head.
Qed.

(** X13.  The five replacements applied one after the other to a string
    value amount to a single pass in which every character is replaced on its
    own: an ampersand brought in by a later replacement is never escaped a
    second time. *)
Theorem X13_escaped_is_one_pass (s : string) :
  Page.escaped s = escape_each s.
Proof.
  induction s as [|x s IH]; [reflexivity|].
  rewrite escaped_cons, IH. reflexivity.
Qed.

Lemma list_ascii_app (a b : string) :
  list_ascii_of_string (a +:+ b) = (list_ascii_of_string a ++ list_ascii_of_string b)%list.
Proof.
  induction a as [|x a IH]; [reflexivity|].
  rewrite append_cons. cbn [list_ascii_of_string]. now rewrite IH.
Qed.

Lemma html_entity_safe (x : ascii) :
  forallb (fun c => negb (html_special c)) (list_ascii_of_string (html_entity x)) = true.
Proof.
  destruct x as [[] [] [] [] [] [] [] []]; vm_compute; reflexivity.
Qed.

Lemma escaped_safe (s : string) :
  forallb (fun c => negb (html_special c)) (list_ascii_of_string (Page.escaped s)) = true.
Proof.
  induction s as [|x s IH]; [reflexivity|].
  rewrite escaped_cons, list_ascii_app, forallb_app, html_entity_safe, IH. reflexivity.
Qed.

(** The six shapes of [html_entity]. *)
Lemma html_entity_cases (x : ascii) :
  (x = "&"%char /\ html_entity x = "&amp;") \/
  (x = "<"%char /\ html_entity x = "&lt;") \/
  (x = ">"%char /\ html_entity x = "&gt;") \/
  (x = "034"%char /\ html_entity x = "&quot;") \/
  (x = "039"%char /\ html_entity x = "&#039;") \/
  (x <> "&"%char /\ html_entity x = String x EmptyString).
Proof.
  destruct x as [[] [] [] [] [] [] [] []];
    first [ left; split; reflexivity
          | right; left; split; reflexivity
          | right; right; left; split; reflexivity
          | right; right; right; left; split; reflexivity
          | right; right; right; right; left; split; reflexivity
          | right; right; right; right; right; split; [discriminate | reflexivity] ].
Qed.

(** No replacement text is the start of another one followed by anything. *)
Lemma html_entity_cancel (x y : ascii) (e1 e2 : string) :
  html_entity x +:+ e1 = html_entity y +:+ e2 -> x = y /\ e1 = e2.
Proof.
  intros E.
  destruct (html_entity_cases x) as [[-> Hx]|[[-> Hx]|[[-> Hx]|[[-> Hx]|[[-> Hx]|[Nx Hx]]]]]];
  destruct (html_entity_cases y) as [[-> Hy]|[[-> Hy]|[[-> Hy]|[[-> Hy]|[[-> Hy]|[Ny Hy]]]]]];
    rewrite ?Hx, ?Hy in E; vm_compute in E;
    try discriminate E;
    try (injection E as E; split; [reflexivity | exact E]);
    try (injection E as E1 E2; exfalso; first [apply Nx | apply Ny]; congruence).
  injection E as -> ->. split; reflexivity.
Qed.

Lemma html_entity_nonempty (x : ascii) (e : string) :
  html_entity x +:+ e <> EmptyString.
Proof.
  destruct (html_entity_cases x) as [[_ Hx]|[[_ Hx]|[[_ Hx]|[[_ Hx]|[[_ Hx]|[_ Hx]]]]]];
    rewrite Hx; discriminate.
Qed.

Section PageValues.
Context {num : Type} `{JsNumber num}.

(** X14.  A string value is rendered as a green span around its escaped
    text in double quotes, and the escaped text has none of the characters
    that open a tag or close an attribute: no markup of a message text
    reaches the dialog. *)
Theorem X14_string_values_are_inert (s : string) (level : nat) :
  exists e,
    Page.processValue (Page.VStr (num := num) s) level
    = Page.span "text-green-400" (dquote +:+ e +:+ dquote) /\
    forall c, In c (list_ascii_of_string e) ->
              c <> "<"%char /\ c <> ">"%char /\ c <> "034"%char /\ c <> "039"%char.
Proof.
  exists (Page.escaped s). split; [reflexivity|].
  intros c Hc.
  pose proof (escaped_safe s) as S. rewrite forallb_forall in S.
  specialize (S c Hc). unfold html_special in S.
  repeat split; intros ->; discriminate S.
Qed.

End PageValues.

(** X15.  Escaping loses nothing: two different string values never get
    the same escaped text. *)
Theorem X15_escaped_injective (s1 s2 : string) :
  Page.escaped s1 = Page.escaped s2 -> s1 = s2.
Proof.
  revert s2. induction s1 as [|x s1 IH]; intros [|y s2] E.
  - reflexivity.
  - rewrite escaped_cons in E. symmetry in E. now apply html_entity_nonempty in E.
  - rewrite escaped_cons in E. now apply html_entity_nonempty in E.
  - rewrite !escaped_cons in E. apply html_entity_cancel in E as [-> E].
    f_equal. now apply IH.
Qed.

End PageText.

Section PageLinks.




End PageLinks.

Section PageState.
Context `{Page.UseChat}.

Lemma scroll_button_after_handle (st : Page.PageState) (e : Page.PageEvent) :
  Page.showScrollButton st = negb (Page.shouldAutoScroll st) ->
  Page.showScrollButton (Page.handle st e) = negb (Page.shouldAutoScroll (Page.handle st e)).
Proof.
  intros I. destruct e as [|[m|]| | | | | |]; cbn; trivial.
Qed.

(** X17.  In every state the page can reach from its mounting, through any
    sequence of clicks, scrolls, inputs, submissions and updates of the hook,
    the scroll-to-bottom button is shown exactly when auto-scroll is off. *)
Theorem X17_scroll_button_iff_not_auto (initialChat : Page.Chat)
    (events : list Page.PageEvent) :
  Page.showScrollButton (Page.after events (Page.mounted initialChat))
  = negb (Page.shouldAutoScroll (Page.after events (Page.mounted initialChat))).
Proof.
  unfold Page.after.
  assert (G : forall st, Page.showScrollButton st = negb (Page.shouldAutoScroll st) ->
              Page.showScrollButton (fold_left Page.handle events st)
              = negb (Page.shouldAutoScroll (fold_left Page.handle events st))).
  { induction events as [|e events IH]; intros st I; [exact I|].
    cbn [fold_left]. apply IH. now apply scroll_button_after_handle. }
  apply G. reflexivity.
Qed.

Lemma placeholders_stay_hidden (events : list Page.PageEvent) (st : Page.PageState) :
  forallb (fun e => negb (is_new_chat e)) events = true ->
  Page.showPlaceholders st = false ->
  Page.showPlaceholders (Page.after events st) = false.
Proof.
  unfold Page.after. revert st.
  induction events as [|e events IH]; intros st Hev Hst; [exact Hst|].
  cbn [forallb] in Hev. apply andb_true_iff in Hev as [He Hev].
  cbn [fold_left]. apply IH; [exact Hev|].
  destruct e as [|[m|]| | | | | |]; cbn; trivial; discriminate He.
Qed.

(** X18.  Once a quick-start suggestion has been clicked, the suggestions
    are not rendered again, whatever happens next, as long as New Chat is not
    clicked; clicking New Chat renders them again at once. *)
Theorem X18_suggestions_hidden_until_new_chat (st : Page.PageState)
    (option : Page.PlaceholderOption) (events : list Page.PageEvent) :
  forallb (fun e => negb (is_new_chat e)) events = true ->
  Page.placeholders_rendered
    (Page.after events (Page.handle st (Page.OptionClicked option))) = false /\
  Page.placeholders_rendered
    (Page.handle (Page.after events (Page.handle st (Page.OptionClicked option)))
                 Page.NewChatClicked) = true.
Proof.
  intros Hev. split.
  - unfold Page.placeholders_rendered.
    rewrite (placeholders_stay_hidden events); [reflexivity|exact Hev|reflexivity].
  - reflexivity.
Qed.

End PageState.

Section PageKeys.
Context {num : Type} `{JsNumber num}.

(** X19.  Unlike string values, the keys of an object are printed as they
    are: the rendering of an object holds each key between double quotes in
    its blue span without any escaping, so markup in a key reaches the
    dialog. *)
Theorem X19_keys_are_not_escaped (entries : list (string * Page.unknown num))
    (key : string) (value : Page.unknown num) (level : nat) :
  In (key, value) entries ->
  occurs_in (Page.span "text-blue-400" (dquote +:+ key +:+ dquote))
            (Page.processValue (Page.VObj entries) level).
Proof.
  intros Hin. destruct entries as [|e entries']; [destruct Hin|].
  cbn [Page.processValue].
  apply occurs_in_app_r, occurs_in_app_r, occurs_in_app_l.
  eapply occurs_in_trans; [|apply occurs_in_join, in_map, Hin].
  cbn [fst snd].
  apply occurs_in_app_r, occurs_in_app_r, occurs_in_app_l, occurs_in_refl.
Qed.

End PageKeys.

Section RouteQuestion.
Context {num : Type} `{JsNumber num}.


End RouteQuestion.

(** ** The further properties on concrete requests *)

Lemma X2_fetch_rejection_witness :
  outcome_of P000 env_complete [user_turn question1] world_unreachable = Rejected "fetch failed" /\
  (forall body, ~ In (EvJsonSettled body)
                     (trace_of P000 env_complete [user_turn question1] world_unreachable)) /\
  generation_calls (trace_of P000 env_complete [user_turn question1] world_unreachable) = [].
Proof.
  apply (X2_fetch_rejection P000 env_complete [user_turn question1] world_unreachable).
  vm_compute. right. left. reflexivity.
Defined.

Lemma X3_body_rejection_witness :
  outcome_of P001 env_complete [user_turn question1] world_bad_body
  = Rejected "Unexpected token < in JSON at position 0" /\
  length (fetch_calls (trace_of P001 env_complete [user_turn question1] world_bad_body)) = 1 /\
  generation_calls (trace_of P001 env_complete [user_turn question1] world_bad_body) = [].
Proof.
  apply (X3_body_rejection P001 env_complete [user_turn question1] world_bad_body).
  vm_compute. right. right. left. reflexivity.
Defined.

Lemma X4_outcome_follows_generation_witness :
  outcome_of P000 env_complete [user_turn question1] world_model_down
  = match generation world_model_down
            (generation_args "llama-3.3-70b-versatile"
               (forwarded P000 [user_turn question1] two_chunks)) with
    | Fulfilled result => Fulfilled (toDataStreamResponse result)
    | Rejected reason => Rejected reason
    end.
Proof.
  apply (X4_outcome_follows_generation P000 env_complete [user_turn question1] world_model_down).
  vm_compute. do 4 right. left. reflexivity.
Defined.

Lemma X5_response_only_from_generation_witness :
  exists args result,
    generation_calls (trace_of P000 env_complete [user_turn question1] (world_returning two_chunks))
    = [args] /\
    generation (world_returning two_chunks) args = Fulfilled result /\
    toDataStreamResponse answer = toDataStreamResponse result.
Proof.
  apply (X5_response_only_from_generation P000 env_complete [user_turn question1]
           (world_returning two_chunks)).
  reflexivity.
Defined.

Lemma X6_generation_model_and_system_witness :
  exists m, MODEL env_complete = Some m /\ m <> EmptyString /\
            model (generation_args "llama-3.3-70b-versatile" (@nil (CoreMessage Z))) = groq m /\
            system (generation_args "llama-3.3-70b-versatile" (@nil (CoreMessage Z)))
            = Part000.system_instruction /\
            system (generation_args "llama-3.3-70b-versatile" (@nil (CoreMessage Z)))
            = Part001.system_instruction.
Proof.
  apply (X6_generation_model_and_system P001 env_complete [] (world_returning JNull)).
  vm_compute. left. reflexivity.
Defined.

Lemma X7_conversation_shape_witness :
  length (messages (generation_args "llama-3.3-70b-versatile"
                      (forwarded P000 [assistant_turn "Hello"; user_turn question1] two_chunks)))
  = length [assistant_turn "Hello"; user_turn question1] /\
  List.map role (messages (generation_args "llama-3.3-70b-versatile"
                      (forwarded P000 [assistant_turn "Hello"; user_turn question1] two_chunks)))
  = List.map role [assistant_turn "Hello"; user_turn question1] /\
  take (length [assistant_turn "Hello"; user_turn question1] - 1)
       (messages (generation_args "llama-3.3-70b-versatile"
                      (forwarded P000 [assistant_turn "Hello"; user_turn question1] two_chunks)))
  = take (length [assistant_turn "Hello"; user_turn question1] - 1)
         [assistant_turn "Hello"; user_turn question1].
Proof.
  apply (X7_conversation_shape P000 env_complete [assistant_turn "Hello"; user_turn question1]
           (world_returning two_chunks)).
  vm_compute. left. reflexivity.
Defined.

Lemma X8_retrieval_is_called_witness :
  exists token url,
    VECTORIZE_TOKEN env_complete = Some token /\
    VECTORIZE_RETRIEVAL_URL env_complete = Some url /\
    fetch_calls (trace_of P000 env_complete ([assistant_turn "Hello"] ++ [user_turn question1])%list
                   world_failing)
    = [(url, retrieval_request token [assistant_turn "Hello"] (user_turn question1))].
Proof.
  apply (X8_retrieval_is_called P000 env_complete [assistant_turn "Hello"] (user_turn question1)
           world_failing).
  reflexivity.
Defined.


Lemma X10_empty_conversation_reads_only_model_witness :
  run (world_returning JNull) (POST_of P001 env_complete [])
  = run (world_returning JNull) (POST_of P001 env_no_token []).
Proof.
  apply (X10_empty_conversation_reads_only_model P001 env_complete env_no_token
           (world_returning JNull)).
  reflexivity.
Defined.

Lemma X11_logged_is_sent_witness :
  exists pre post,
    trace_of P000 env_complete [user_turn question1] (world_returning two_chunks)
    = (pre ++ EvLog [JStr "sending messages to the LLM";
                     JArr (List.map message_json
                             (messages (generation_args "llama-3.3-70b-versatile"
                                          (forwarded P000 [user_turn question1] two_chunks))))]
           :: EvStreamTextCall (generation_args "llama-3.3-70b-versatile"
                                  (forwarded P000 [user_turn question1] two_chunks))
           :: post)%list.
Proof.
  apply (X11_logged_is_sent P000 env_complete [user_turn question1] (world_returning two_chunks)).
  vm_compute. do 4 right. left. reflexivity.
Defined.

Lemma X12_unmodified_iff_falsy_witness :
  messages (generation_args "llama-3.3-70b-versatile"
              (forwarded P000 [user_turn question1] (JBool false)))
  = [user_turn question1]
  <-> truthy (JBool (num := Z) false) = false.
Proof.
  apply (X12_unmodified_iff_falsy P000 env_complete [user_turn question1]
           (world_returning (JBool false))).
  - unfold retrieved. vm_compute. right. right. left. reflexivity.
  - vm_compute. left. reflexivity.
Defined.

Lemma X15_escaped_injective_witness :
  ("<b>" +:+ dquote +:+ "Tom & Jerry" +:+ dquote +:+ "</b>")
  = ("<b>" +:+ dquote +:+ "Tom & Jerry" +:+ dquote +:+ "</b>").
Proof.
  apply (X15_escaped_injective
           ("<b>" +:+ dquote +:+ "Tom & Jerry" +:+ dquote +:+ "</b>")
           ("<b>" +:+ dquote +:+ "Tom & Jerry" +:+ dquote +:+ "</b>")).
  reflexivity.
Defined.

Lemma X18_suggestions_hidden_until_new_chat_witness :
  Page.placeholders_rendered
    (Page.after (H := hook_model)
       [Page.HookUpdated (fun c => c); Page.Scrolled None; Page.DialogClosed]
       (Page.handle (H := hook_model) page_mounted
          (Page.OptionClicked {| Page.emoji := "*"; Page.text := question1 |}))) = false /\
  Page.placeholders_rendered
    (Page.handle (H := hook_model)
       (Page.after (H := hook_model)
          [Page.HookUpdated (fun c => c); Page.Scrolled None; Page.DialogClosed]
          (Page.handle (H := hook_model) page_mounted
             (Page.OptionClicked {| Page.emoji := "*"; Page.text := question1 |})))
       Page.NewChatClicked) = true.
Proof.
  apply (X18_suggestions_hidden_until_new_chat (H := hook_model)).
  reflexivity.
Defined.

(** The escaping on a text with all five characters. *)
Example escaped_sample :
  Page.escaped ("<a href='x'>" +:+ dquote +:+ "R&D" +:+ dquote)
  = "&lt;a href=&#039;x&#039;&gt;&quot;R&amp;D&quot;".
Proof. vm_compute. reflexivity. Qed.

(** A message with a nested array, as the dialog prints it. *)
Example formatJSON_sample :
  Page.formatJSON (Page.VObj [("role", Page.VStr "user"); ("parts", Page.VArr [Page.VNum 1%Z])])
  = "<pre class=" +:+ dquote +:+ "font-mono text-sm whitespace-pre" +:+ dquote +:+ ">"
    +:+ Page.span "text-gray-300" "{" +:+ nl
    +:+ "  " +:+ Page.span "text-blue-400" (dquote +:+ "role" +:+ dquote) +:+ ": "
    +:+ Page.span "text-green-400" (dquote +:+ "user" +:+ dquote) +:+ "," +:+ nl
    +:+ "  " +:+ Page.span "text-blue-400" (dquote +:+ "parts" +:+ dquote) +:+ ": "
    +:+ Page.span "text-gray-300" "[" +:+ nl
    +:+ "    " +:+ Page.span "text-yellow-400" "1" +:+ nl
    +:+ "  " +:+ Page.span "text-gray-300" "]" +:+ nl
    +:+ Page.span "text-gray-300" "}"
    +:+ "</pre>".
Proof. vm_compute. reflexivity. Qed.

Lemma X19_keys_are_not_escaped_witness :
  occurs_in (Page.span "text-blue-400" (dquote +:+ "<i>role</i>" +:+ dquote))
            (Page.processValue (Page.VObj [("<i>role</i>", Page.VStr (num := Z) "user")]) 0).
Proof.
  apply (X19_keys_are_not_escaped [("<i>role</i>", Page.VStr (num := Z) "user")]
           "<i>role</i>" (Page.VStr "user") 0).
  left. reflexivity.
Defined.

